(** * scripts/train.py: the DOLMA training entry point

    A shallow embedding of [scripts/train.py]: the two name-to-constructor
    dispatchers [build_scheduler] and [build_algorithm], the body of [main],
    and the [__main__] block that reads [sys.argv].

    The script is glue over an external training framework.  Calls that leave
    the script (the framework, the [dolma] package, [os.environ]) are recorded
    in a chronological list of [event]s, and a [World] says what each of them
    does: whether it raises, and what it answers when the script looks at the
    answer.  Framework objects are represented by the constructor call that
    makes them. *)

From Stdlib Require Import ZArith Ascii String List Lia.
From stdpp Require Import base option strings list gmap pretty.

Open Scope string_scope.
Open Scope Z_scope.
Open Scope list_scope.

(** ** Python values the script formats into messages *)

(** [str.upper] on the ASCII letters (the framework's device names are
    ASCII: cpu, gpu, tpu, mps). *)
Definition upper_ascii (c : ascii) : ascii :=
  let n := nat_of_ascii c in
  if ((97 <=? n) && (n <=? 122))%nat then ascii_of_nat (n - 32) else c.

Fixpoint upper (s : string) : string :=
  match s with
  | EmptyString => EmptyString
  | String c s' => String (upper_ascii c) (upper s')
  end.

(** [f"{z}"] for an int. *)
Definition format_d (z : Z) : string := pretty z.

(** Digits, least significant first: a comma goes in after every third one
    that has a successor. *)
Fixpoint commas_rev (ds : list ascii) (k : nat) : list ascii :=
  match ds with
  | [] => []
  | d :: ds' =>
      match k with
      | 3%nat => ","%char :: d :: commas_rev ds' 1
      | _ => d :: commas_rev ds' (S k)
      end
  end.

(** [f"{z:,d}"]: decimal with a comma between groups of three digits. *)
Definition format_comma_d (z : Z) : string :=
  let digits := list_ascii_of_string (pretty (Z.abs z)) in
  let grouped := rev (commas_rev (rev digits) 0) in
  (if (z <? 0)%Z then "-" else "") +:+ string_of_list_ascii grouped.

Section Script.

(** [Any] stands for the Python objects the script passes along without
    looking inside them ([typing.Any]): configuration sub-records, durations,
    floats, keyword values, exception objects of the framework. *)
Context {Any : Type}.

(** ** Configuration records (the attributes the script reads) *)

Record SchedulerConfig := {
  name : string;
  t_warmup : Any;
  alpha_f : Any
}.

(** [Dict[str, Any]]: the keyword arguments of one algorithm. *)
Definition Kwargs : Type := gmap string Any.

Record TrainConfig := {
  run_name : option string;
  seed : Any;
  dry_run : bool;
  model : Any;
  optimizer : Any;
  scheduler : SchedulerConfig;
  (** [None], or a dict from algorithm name to keyword arguments; a Python
      dict iterates in insertion order, so the entries are kept as a list. *)
  algorithms : option (list (string * Kwargs));
  wandb : option Any;
  console_log_interval : Any;
  global_train_batch_size : Z;
  (** [Some n] when the attribute holds an int. *)
  device_train_batch_size : option Z;
  device_train_microbatch_size : Any;
  max_duration : Any;
  precision : Any;
  fsdp_config : Any;
  save_folder : Any;
  save_interval : Any;
  save_num_checkpoints_to_keep : Any;
  save_overwrite : Any;
  load_path : Any;
  load_weights_only : Any
}.

(** [cfg.run_name = v] *)
Definition set_run_name (v : option string) (c : TrainConfig) : TrainConfig :=
  {| run_name := v; seed := seed c; dry_run := dry_run c; model := model c;
     optimizer := optimizer c; scheduler := scheduler c;
     algorithms := algorithms c; wandb := wandb c;
     console_log_interval := console_log_interval c;
     global_train_batch_size := global_train_batch_size c;
     device_train_batch_size := device_train_batch_size c;
     device_train_microbatch_size := device_train_microbatch_size c;
     max_duration := max_duration c; precision := precision c;
     fsdp_config := fsdp_config c; save_folder := save_folder c;
     save_interval := save_interval c;
     save_num_checkpoints_to_keep := save_num_checkpoints_to_keep c;
     save_overwrite := save_overwrite c; load_path := load_path c;
     load_weights_only := load_weights_only c |}.

(** The two per-device batch-size attributes, written together. *)
Definition set_device_batch_sizes (b : option Z) (mb : Any) (c : TrainConfig)
  : TrainConfig :=
  {| run_name := run_name c; seed := seed c; dry_run := dry_run c;
     model := model c; optimizer := optimizer c; scheduler := scheduler c;
     algorithms := algorithms c; wandb := wandb c;
     console_log_interval := console_log_interval c;
     global_train_batch_size := global_train_batch_size c;
     device_train_batch_size := b;
     device_train_microbatch_size := mb;
     max_duration := max_duration c; precision := precision c;
     fsdp_config := fsdp_config c; save_folder := save_folder c;
     save_interval := save_interval c;
     save_num_checkpoints_to_keep := save_num_checkpoints_to_keep c;
     save_overwrite := save_overwrite c; load_path := load_path c;
     load_weights_only := load_weights_only c |}.

(** ** Framework objects, each named by the call that builds it *)

Inductive Scheduler :=
| ConstantWithWarmupScheduler (t_warmup : Any)
| CosineAnnealingWithWarmupScheduler (t_warmup alpha_f : Any)
| LinearWithWarmupScheduler (t_warmup alpha_f : Any).

Inductive Algorithm :=
| GradientClipping (kwargs : Kwargs)
| FusedLayerNorm (kwargs : Kwargs)
| GatedLinearUnits (kwargs : Kwargs)
| LowPrecisionLayerNorm (kwargs : Kwargs).

Inductive Device := get_device_None.

Inductive Model := ComposerDolmaGPT (model_cfg : Any).

(** [model.model.configure_optimizer], called with the optimizer
    configuration as keyword arguments. *)
Inductive Optimizer := configure_optimizer_of (m : Model) (optimizer_cfg : Any).

(** [build_dataloader(cfg, batch_size)] *)
Inductive DataLoader := build_dataloader_of (cfg : TrainConfig) (batch_size : Z).

Inductive Callback := SpeedMonitorMFU.

Inductive LoggerDestination :=
| DolmaConsoleLogger (log_interval : Any)
| WandBLogger (wandb_cfg : Any).

(** A trainer is the keyword arguments [Trainer(...)] was called with. *)
Record Trainer := {
  kw_run_name : option string;
  kw_seed : Any;
  kw_model : Model;
  kw_train_dataloader : DataLoader;
  kw_optimizers : Optimizer;
  kw_schedulers : Scheduler;
  kw_max_duration : Any;
  kw_precision : Any;
  kw_device_train_microbatch_size : Any;
  kw_fsdp_config : Any;
  kw_save_folder : Any;
  kw_save_interval : Any;
  kw_save_num_checkpoints_to_keep : Any;
  kw_save_overwrite : Any;
  kw_load_path : Any;
  kw_load_weights_only : Any;
  kw_callbacks : list Callback;
  kw_loggers : list LoggerDestination;
  kw_algorithms : list Algorithm;
  kw_progress_bar : bool;
  kw_log_to_console : bool;
  kw_console_log_interval : Any
}.

(** ** Exceptions *)

(** The exceptions the script raises itself, and [Propagated e] for an
    exception object [e] that comes out of an external call. *)
Inductive exn :=
| DolmaConfigurationError (msg : string)
| DolmaCliError (msg : string)
| ValueError (msg : string)
| IndexError
| AssertionError
| Propagated (e : Any).

Inductive result (A : Type) :=
| Return (a : A)
| Raise (e : exn).
Global Arguments Return {A} a.
Global Arguments Raise {A} e.

(** ** External calls *)

(** A positional argument of [echo.info] / [echo.success]. *)
Inductive echo_arg :=
| arg_str (s : string)
| arg_cfg (cfg : TrainConfig).

Inductive event :=
| ev_prepare_cli_environment
| ev_clean_opt (s : string)
| ev_TrainConfig_load (yaml_path : string) (overrides : list string)
| ev_echo_info (args : list echo_arg) (rank_zero_only : option bool)
| ev_echo_success (args : list echo_arg) (rank_zero_only : option bool)
| ev_seed_all (seed : Any)
| ev_get_device
| ev_initialize_dist (d : Device)
| ev_environ_get (key default : string)
| ev_update_batch_size_info (cfg : TrainConfig)
| ev_ComposerDolmaGPT (model_cfg : Any)
| ev_num_params (m : Model) (include_embedding : option bool)
| ev_configure_optimizer (m : Model) (optimizer_cfg : Any)
| ev_build_dataloader (cfg : TrainConfig) (batch_size : Z)
| ev_SpeedMonitorMFU
| ev_DolmaConsoleLogger (log_interval : Any)
| ev_WandBLogger (wandb_cfg : Any)
| ev_Trainer (kw : Trainer)
| ev_device_name (t : Trainer)
| ev_cuda_current_device
| ev_get_local_rank
| ev_get_local_world_size
| ev_get_global_rank
| ev_get_world_size
| ev_fit (t : Trainer)
| ev_close (t : Trainer).

(** What lies outside the script.  [ext_raises h ev] is the exception the
    call [ev] raises when it is made after the calls [h], if it raises.
    [update_batch_size_info] lives in [dolma.util]; the script's comment
    ("Update batch size info.") and the assertion after the call say what it
    writes, so the world gives the new per-device batch sizes and the other
    attributes of [cfg] stay as they are. *)
Record World := {
  ext_raises : list event -> event -> option Any;
  ext_environ : gmap string string;
  ext_update_batch_size_info : TrainConfig -> option Z * Any;
  ext_num_params : Model -> option bool -> Z;
  ext_device_name : Trainer -> string;
  ext_current_device : Z;
  ext_local_rank : Z;
  ext_local_world_size : Z;
  ext_global_rank : Z;
  ext_world_size : Z;
  ext_clean_opt : string -> string;
  ext_TrainConfig_load : string -> list string -> TrainConfig
}.

(** ** The state and error monad of the script *)

(** [main] runs on the configuration object it was given, which it mutates,
    and on the calls made so far. *)
Record state := {
  st_cfg : TrainConfig;
  st_calls : list event
}.

Definition M (S A : Type) : Type := S -> S * result A.

Definition ret {S A} (a : A) : M S A := fun s => (s, Return a).

Definition raise {S A} (e : exn) : M S A := fun s => (s, Raise e).

Definition bind {S A B} (m : M S A) (k : A -> M S B) : M S B :=
  fun s =>
    match m s with
    | (s', Return a) => k a s'
    | (s', Raise e) => (s', Raise e)
    end.

(** A pure computation that may raise, run inside the monad. *)
Definition lift {S A} (r : result A) : M S A := fun s => (s, r).

(** A state that keeps the list of calls. *)
Class Log (S : Type) := {
  history : S -> list event;
  record : event -> S -> S
}.

#[export] Instance trace_log : Log (list event) := {|
  history := fun tr => tr;
  record := fun ev tr => tr ++ [ev]
|}.

#[export] Instance state_log : Log state := {|
  history := st_calls;
  record := fun ev s => {| st_cfg := st_cfg s; st_calls := st_calls s ++ [ev] |}
|}.

Declare Scope script_scope.
Local Notation "x ← y ; z" := (bind y (fun x => z))
  (at level 20, y at level 100, z at level 200, only parsing) : script_scope.
Local Notation "x ;; z" := (bind x (fun _ => z))
  (at level 100, z at level 200, only parsing, right associativity)
  : script_scope.
Local Open Scope script_scope.

Variable w : World.

(** An external call: it is recorded, then it raises or answers [a]. *)
Definition extern {S} `{Log S} {A} (ev : event) (a : A) : M S A :=
  fun s =>
    match ext_raises w (history s) ev with
    | Some e => (record ev s, Raise (Propagated e))
    | None => (record ev s, Return a)
    end.

(** [os.environ.get(key, default)]: recorded; a dict lookup does not raise. *)
Definition environ_get {S} `{Log S} (key dflt : string) : M S string :=
  fun s =>
    (record (ev_environ_get key dflt) s,
     Return (default dflt (ext_environ w !! key))).

Definition get_cfg : M state TrainConfig := fun s => (s, Return (st_cfg s)).

Definition set_cfg (c : TrainConfig) : M state unit :=
  fun s => ({| st_cfg := c; st_calls := st_calls s |}, Return tt).

(** ** The two dispatchers *)

Definition build_scheduler (cfg : SchedulerConfig) : result Scheduler :=
  if String.eqb (name cfg) "constant_with_warmup" then
    Return (ConstantWithWarmupScheduler (t_warmup cfg))
  else if String.eqb (name cfg) "cosine_with_warmup" then
    Return (CosineAnnealingWithWarmupScheduler (t_warmup cfg) (alpha_f cfg))
  else if String.eqb (name cfg) "linear_decay_with_warmup" then
    Return (LinearWithWarmupScheduler (t_warmup cfg) (alpha_f cfg))
  else
    Raise (DolmaConfigurationError
             ("Not sure how to build scheduler: " +:+ name cfg)).

Definition build_algorithm (name : string) (kwargs : Kwargs) : result Algorithm :=
  if String.eqb name "gradient_clipping" then
    Return (GradientClipping kwargs)
  else if String.eqb name "fused_layernorm" then
    Return (FusedLayerNorm kwargs)
  else if String.eqb name "gated_linear_units" then
    Return (GatedLinearUnits kwargs)
  else if String.eqb name "low_precision_layernorm" then
    Return (LowPrecisionLayerNorm kwargs)
  else
    Raise (ValueError ("Not sure how to build algorithm: " +:+ name)).

(** ** [main] *)

(** [(cfg.algorithms or {}).items()]: [None] and the empty dict are both
    falsy and give no items. *)
Definition algorithm_items (a : option (list (string * Kwargs)))
  : list (string * Kwargs) :=
  match a with
  | None => []
  | Some [] => []
  | Some items => items
  end.

(** The list comprehension over the items: the algorithms in order, or the
    exception of the first item that cannot be built. *)
Fixpoint build_algorithms (items : list (string * Kwargs))
  : result (list Algorithm) :=
  match items with
  | [] => Return []
  | (name, algorithm_cfg) :: rest =>
      match build_algorithm name algorithm_cfg with
      | Raise e => Raise e
      | Return a =>
          match build_algorithms rest with
          | Raise e => Raise e
          | Return l => Return (a :: l)
          end
      end
  end.

(** [update_batch_size_info(cfg)]: mutates [cfg] in place. *)
Definition update_batch_size_info : M state unit :=
  cfg ← get_cfg;
  sizes ← extern (ev_update_batch_size_info cfg)
                 (ext_update_batch_size_info w cfg);
  set_cfg (set_device_batch_sizes sizes.1 sizes.2 cfg).

(** [assert isinstance(x, int)] *)
Definition assert_isinstance_int {S} (x : option Z) : M S Z :=
  match x with
  | Some n => ret n
  | None => raise AssertionError
  end.

(** [Trainer(...)] with these keyword arguments. *)
Definition new_Trainer {S} `{Log S} (kw : Trainer) : M S Trainer :=
  extern (ev_Trainer kw) kw.

Definition main : M state unit :=
  cfg ← get_cfg;
  extern (ev_echo_info [arg_str "Configuration:"; arg_cfg cfg] (Some true)) tt;;
  extern (ev_seed_all (seed cfg)) tt;;
  device ← extern ev_get_device get_device_None;
  extern (ev_initialize_dist device) tt;;
  (* Run name. *)
  cfg ← get_cfg;
  match run_name cfg with
  | None =>
      v ← environ_get "COMPOSER_RUN_NAME" "llm";
      set_cfg (set_run_name (Some v) cfg)
  | Some _ => ret tt
  end;;
  (* Update batch size info. *)
  update_batch_size_info;;
  cfg ← get_cfg;
  batch_size ← assert_isinstance_int (device_train_batch_size cfg);
  extern (ev_echo_info
            [arg_str ("Using per-device training batch size of "
                      +:+ format_d batch_size
                      +:+ " for global batch size of "
                      +:+ format_d (global_train_batch_size cfg))]
            (Some true)) tt;;
  (* Model. *)
  model ← extern (ev_ComposerDolmaGPT (model cfg)) (ComposerDolmaGPT (model cfg));
  n ← extern (ev_num_params model None) (ext_num_params w model None);
  extern (ev_echo_info
            [arg_str ("Total number of parameters: " +:+ format_comma_d n)]
            (Some true)) tt;;
  n ← extern (ev_num_params model (Some false))
             (ext_num_params w model (Some false));
  extern (ev_echo_info
            [arg_str ("Number of non-embedding parameters: "
                      +:+ format_comma_d n)]
            (Some true)) tt;;
  (* Optimizer. *)
  optimizer ← extern (ev_configure_optimizer model (optimizer cfg))
                     (configure_optimizer_of model (optimizer cfg));
  (* Scheduler. *)
  scheduler ← lift (build_scheduler (scheduler cfg));
  (* Dataset / data loader. *)
  train_loader ← extern (ev_build_dataloader cfg batch_size)
                        (build_dataloader_of cfg batch_size);
  (* Algorithms. *)
  algorithms ← lift (build_algorithms (algorithm_items (algorithms cfg)));
  (* Callbacks. *)
  callback ← extern ev_SpeedMonitorMFU SpeedMonitorMFU;
  let callbacks := [callback] in
  (* Loggers. *)
  logger ← extern (ev_DolmaConsoleLogger (console_log_interval cfg))
                  (DolmaConsoleLogger (console_log_interval cfg));
  loggers ←
    match wandb cfg with
    | Some wandb_cfg =>
        wandb_logger ← extern (ev_WandBLogger wandb_cfg) (WandBLogger wandb_cfg);
        ret ([logger] ++ [wandb_logger])
    | None => ret [logger]
    end;
  (* Trainer. *)
  trainer ←
    new_Trainer
      {| kw_run_name := run_name cfg;
         kw_seed := seed cfg;
         kw_model := model;
         kw_train_dataloader := train_loader;
         kw_optimizers := optimizer;
         kw_schedulers := scheduler;
         kw_max_duration := max_duration cfg;
         kw_precision := precision cfg;
         kw_device_train_microbatch_size := device_train_microbatch_size cfg;
         kw_fsdp_config := fsdp_config cfg;
         kw_save_folder := save_folder cfg;
         kw_save_interval := save_interval cfg;
         kw_save_num_checkpoints_to_keep := save_num_checkpoints_to_keep cfg;
         kw_save_overwrite := save_overwrite cfg;
         kw_load_path := load_path cfg;
         kw_load_weights_only := load_weights_only cfg;
         kw_callbacks := callbacks;
         kw_loggers := loggers;
         kw_algorithms := algorithms;
         kw_progress_bar := false;
         kw_log_to_console := false;
         kw_console_log_interval := console_log_interval cfg |};
  device_name ← extern (ev_device_name trainer) (ext_device_name w trainer);
  let device_id := upper device_name in
  device_id ←
    (if String.eqb device_id "GPU" then
       k ← extern ev_cuda_current_device (ext_current_device w);
       ret (device_id +:+ " " +:+ format_d k)
     else ret device_id);
  local_rank ← extern ev_get_local_rank (ext_local_rank w);
  local_world_size ← extern ev_get_local_world_size (ext_local_world_size w);
  global_rank ← extern ev_get_global_rank (ext_global_rank w);
  world_size ← extern ev_get_world_size (ext_world_size w);
  extern (ev_echo_info
            [arg_str ("Local rank: " +:+ format_d local_rank +:+ "/"
                      +:+ format_d local_world_size +:+ ", global rank: "
                      +:+ format_d global_rank +:+ "/"
                      +:+ format_d world_size +:+ ", training on "
                      +:+ device_id)]
            None) tt;;
  (if negb (dry_run cfg) then extern (ev_fit trainer) tt else ret tt);;
  extern (ev_close trainer) tt;;
  if dry_run cfg then
    extern (ev_echo_success [arg_str "Dry run complete"] (Some true)) tt
  else
    extern (ev_echo_success [arg_str "Training complete"] (Some true)) tt.

(** One run of [main(cfg)], from no calls made: the final state (the
    configuration object as [main] left it, and the calls in order) and
    whether [main] returned or raised. *)
Definition run_main (cfg : TrainConfig) : state * result unit :=
  main {| st_cfg := cfg; st_calls := [] |}.

(** ** The [__main__] block *)

(** [[clean_opt(s) for s in args_list]] *)
Fixpoint clean_opts (args_list : list string) : M (list event) (list string) :=
  match args_list with
  | [] => ret []
  | s :: rest =>
      o ← extern (ev_clean_opt s) (ext_clean_opt w s);
      os ← clean_opts rest;
      ret (o :: os)
  end.

(** [main(cfg)] called from the block: the calls go on in the same list. *)
Definition call_main (cfg : TrainConfig) : M (list event) unit :=
  fun calls =>
    let (s, r) := main {| st_cfg := cfg; st_calls := calls |} in
    (st_calls s, r).

(** The block under [if __name__ == "__main__":], given [sys.argv].
    [sys.argv[1]] raises [IndexError] when there is no such element, and the
    handler formats [sys.argv[0]] into the usage message, which raises
    [IndexError] again on an empty list; the slice [sys.argv[2:]] never
    raises. *)
Definition script (argv : list string) : M (list event) unit :=
  extern ev_prepare_cli_environment tt;;
  match argv !! 1%nat with
  | Some yaml_path =>
      let args_list := drop 2 argv in
      overrides ← clean_opts args_list;
      cfg ← extern (ev_TrainConfig_load yaml_path overrides)
                   (ext_TrainConfig_load w yaml_path overrides);
      call_main cfg
  | None =>
      match argv !! 0%nat with
      | Some argv0 =>
          raise (DolmaCliError
                   ("Usage: " +:+ argv0 +:+ " [CONFIG_PATH] [OPTIONS]"))
      | None => raise IndexError
      end
  end.

Definition run_script (argv : list string) : list event * result unit :=
  script argv [].

End Script.

Arguments SchedulerConfig Any : clear implicits.
Arguments Kwargs Any : clear implicits.
Arguments TrainConfig Any : clear implicits.
Arguments Scheduler Any : clear implicits.
Arguments Algorithm Any : clear implicits.
Arguments Model Any : clear implicits.
Arguments Trainer Any : clear implicits.
Arguments exn Any : clear implicits.
Arguments event Any : clear implicits.
Arguments World Any : clear implicits.
Arguments state Any : clear implicits.

(** ** Reading a list of calls *)

Section Calls.

Context {Any : Type}.

Fixpoint count (p : event Any -> bool) (calls : list (event Any)) : nat :=
  match calls with
  | [] => 0
  | ev :: rest => (if p ev then 1 else 0) + count p rest
  end%nat.

Definition is_fit (ev : event Any) : bool :=
  match ev with ev_fit _ => true | _ => false end.

Definition is_close (ev : event Any) : bool :=
  match ev with ev_close _ => true | _ => false end.

Definition is_environ_get (ev : event Any) : bool :=
  match ev with ev_environ_get _ _ => true | _ => false end.

Definition is_TrainConfig_load (ev : event Any) : bool :=
  match ev with ev_TrainConfig_load _ _ => true | _ => false end.

(** [trainer.fit()] once, [trainer.close()] once, on the same trainer, the
    first before the second. *)
Definition fit_once_then_close_once (calls : list (event Any)) : Prop :=
  count is_fit calls = 1%nat /\
  count is_close calls = 1%nat /\
  exists (t : Trainer Any) (i j : nat),
    calls !! i = Some (ev_fit t) /\ calls !! j = Some (ev_close t) /\ (i < j)%nat.

(** The trainers built, in order. *)
Fixpoint trainers (calls : list (event Any)) : list (Trainer Any) :=
  match calls with
  | [] => []
  | ev_Trainer t :: rest => t :: trainers rest
  | _ :: rest => trainers rest
  end.

(** [echo.success(msg, ...)] with this very message. *)
Definition is_success (msg : string) (ev : event Any) : bool :=
  match ev with
  | ev_echo_success [arg_str s] _ => String.eqb s msg
  | _ => false
  end.

End Calls.

(** ** Sample inputs

    Opaque Python values are written as strings here. *)

Definition sample_scheduler (n : string) : SchedulerConfig string :=
  {| name := n; t_warmup := "100ba"; alpha_f := "0.1" |}.

Definition sample_kwargs : Kwargs string :=
  {[ "clipping_type" := "norm"; "clipping_threshold" := "1.0" ]}.

Definition sample_cfg (rn : option string) (dry : bool) (sched : string)
  : TrainConfig string :=
  {| run_name := rn; seed := "6198"; dry_run := dry; model := "model";
     optimizer := "optimizer"; scheduler := sample_scheduler sched;
     algorithms :=
       Some [("gradient_clipping", sample_kwargs); ("fused_layernorm", ∅)];
     wandb := None; console_log_interval := "10";
     global_train_batch_size := 512; device_train_batch_size := None;
     device_train_microbatch_size := "auto"; max_duration := "1ep";
     precision := "amp_bf16"; fsdp_config := "None"; save_folder := "None";
     save_interval := "1ep"; save_num_checkpoints_to_keep := "-1";
     save_overwrite := "False"; load_path := "None";
     load_weights_only := "False" |}.

(** A world in which no call raises, on 8 devices. *)
Definition sample_world (env : gmap string string) : World string :=
  {| ext_raises := fun _ _ => None;
     ext_environ := env;
     ext_update_batch_size_info :=
       fun c => (Some (global_train_batch_size c / 8), "8");
     ext_num_params := fun _ inc => if inc is Some false then 1000 else 1234567;
     ext_device_name := fun _ => "gpu";
     ext_current_device := 3;
     ext_local_rank := 3;
     ext_local_world_size := 8;
     ext_global_rank := 3;
     ext_world_size := 8;
     ext_clean_opt := fun s => s;
     ext_TrainConfig_load := fun _ _ => sample_cfg None false "cosine_with_warmup" |}.

(** ** More readers of a list of calls *)

Section MoreCalls.

Context {Any : Type}.

Definition is_seed_all (ev : event Any) : bool :=
  match ev with ev_seed_all _ => true | _ => false end.

Definition is_initialize_dist (ev : event Any) : bool :=
  match ev with ev_initialize_dist _ => true | _ => false end.

Definition is_update_batch_size_info (ev : event Any) : bool :=
  match ev with ev_update_batch_size_info _ => true | _ => false end.

Definition is_ComposerDolmaGPT (ev : event Any) : bool :=
  match ev with ev_ComposerDolmaGPT _ => true | _ => false end.

Definition is_configure_optimizer (ev : event Any) : bool :=
  match ev with ev_configure_optimizer _ _ => true | _ => false end.

Definition is_build_dataloader (ev : event Any) : bool :=
  match ev with ev_build_dataloader _ _ => true | _ => false end.

Definition is_Trainer (ev : event Any) : bool :=
  match ev with ev_Trainer _ => true | _ => false end.

Definition is_cuda_current_device (ev : event Any) : bool :=
  match ev with ev_cuda_current_device => true | _ => false end.

Definition is_clean_opt (ev : event Any) : bool :=
  match ev with ev_clean_opt _ => true | _ => false end.

(** A call on a trainer object: its device name, [fit] or [close]. *)
Definition uses_trainer (ev : event Any) : bool :=
  match ev with
  | ev_device_name _ | ev_fit _ | ev_close _ => true
  | _ => false
  end.

(** The seeds [seed_all] was called with, in order. *)
Fixpoint seeds (calls : list (event Any)) : list Any :=
  match calls with
  | [] => []
  | ev_seed_all s :: rest => s :: seeds rest
  | _ :: rest => seeds rest
  end.

(** The trainers on which a method was called, in order. *)
Fixpoint trainers_used (calls : list (event Any)) : list (Trainer Any) :=
  match calls with
  | [] => []
  | ev_device_name t :: rest => t :: trainers_used rest
  | ev_fit t :: rest => t :: trainers_used rest
  | ev_close t :: rest => t :: trainers_used rest
  | _ :: rest => trainers_used rest
  end.

(** The arguments of the [build_dataloader] calls, in order. *)
Fixpoint dataloaders (calls : list (event Any)) : list (TrainConfig Any * Z) :=
  match calls with
  | [] => []
  | ev_build_dataloader c b :: rest => (c, b) :: dataloaders rest
  | _ :: rest => dataloaders rest
  end.

(** Every call that satisfies [q] comes after some call that satisfies
    [p]. *)
Fixpoint preceded_by (p q : event Any -> bool) (calls : list (event Any))
  : bool :=
  match calls with
  | [] => true
  | ev :: rest =>
      if q ev then false
      else if p ev then true
      else preceded_by p q rest
  end.

End MoreCalls.

(** ** The dispatchers with the constructor calls made

    [build_scheduler] and [build_algorithm] above say which framework
    constructor is called with which arguments, or raise the script's own
    error.  The constructor call itself is a call into the framework, which
    may raise whatever it likes for the arguments it is given (a duration
    string it cannot parse, a missing keyword).  A [Composer] says for each
    constructor call whether it raises, and what. *)

Section Constructors.

Context {Any : Type}.

Record Composer := {
  new_scheduler_raises : Scheduler Any -> option (exn Any);
  new_algorithm_raises : Algorithm Any -> option (exn Any)
}.

(** Make the call that was selected. *)
Definition construct {A : Type} (raises : A -> option (exn Any))
    (selected : result (Any:=Any) A) : result A :=
  match selected with
  | Return a =>
      match raises a with
      | Some e => Raise e
      | None => Return a
      end
  | Raise e => Raise e
  end.

(** [build_scheduler(cfg)], lines 33-47. *)
Definition build_scheduler_in (c : Composer) (cfg : SchedulerConfig Any)
  : result (Scheduler Any) :=
  construct (new_scheduler_raises c) (build_scheduler cfg).

(** [build_algorithm(name, kwargs)], lines 50-64. *)
Definition build_algorithm_in (c : Composer) (name : string)
    (kwargs : Kwargs Any) : result (Algorithm Any) :=
  construct (new_algorithm_raises c) (build_algorithm name kwargs).

(** The list comprehension of line 112: the algorithms in order, or the
    exception of the first entry whose name is not recognized or whose
    constructor raises. *)
Fixpoint build_algorithms_in (c : Composer)
    (items : list (string * Kwargs Any)) : result (list (Algorithm Any)) :=
  match items with
  | [] => Return []
  | (name, algorithm_cfg) :: rest =>
      match build_algorithm_in c name algorithm_cfg with
      | Raise e => Raise e
      | Return a =>
          match build_algorithms_in c rest with
          | Raise e => Raise e
          | Return l => Return (a :: l)
          end
      end
  end.

End Constructors.

Arguments Composer Any : clear implicits.
Arguments build_scheduler_in : simpl never.
Arguments build_algorithm_in : simpl never.

(** A framework that refuses the duration "bogus" as warm-up time and a
    gradient clipping without 'clipping_type'. *)
Definition strict_composer : Composer string :=
  {| new_scheduler_raises :=
       fun s =>
         let t := match s with
                  | ConstantWithWarmupScheduler t => t
                  | CosineAnnealingWithWarmupScheduler t _ => t
                  | LinearWithWarmupScheduler t _ => t
                  end in
         if String.eqb t "bogus"
         then Some (ValueError "Invalid time string: bogus")
         else None;
     new_algorithm_raises :=
       fun a =>
         match a with
         | GradientClipping kwargs =>
             match kwargs !! "clipping_type" with
             | Some _ => None
             | None =>
                 Some (Propagated
                         "TypeError: missing argument 'clipping_type'")
             end
         | _ => None
         end |}.

(** A computation that only adds to the calls made so far. *)
Definition extends {Any S A : Type} `{!Log (Any:=Any) S} (m : M (Any:=Any) S A)
  : Prop :=
  forall s, exists new, history (m s).1 = history s ++ new.

(** The sample world, except that the calls [p] selects raise [e]. *)
Definition raising_world (p : event string -> bool) (e : string)
  : World string :=
  {| ext_raises := fun _ ev => if p ev then Some e else None;
     ext_environ := ∅;
     ext_update_batch_size_info :=
       fun c => (Some (global_train_batch_size c / 8), "8");
     ext_num_params := fun _ inc => if inc is Some false then 1000 else 1234567;
     ext_device_name := fun _ => "gpu";
     ext_current_device := 3;
     ext_local_rank := 3;
     ext_local_world_size := 8;
     ext_global_rank := 3;
     ext_world_size := 8;
     ext_clean_opt := fun s => s;
     ext_TrainConfig_load := fun _ _ => sample_cfg None false "cosine_with_warmup" |}.

(** The sample world on a machine without a GPU, where
    [update_batch_size_info] leaves [b] as the per-device batch size. *)
Definition cpu_world (b : option Z) : World string :=
  {| ext_raises := fun _ _ => None;
     ext_environ := ∅;
     ext_update_batch_size_info := fun c => (b, "8");
     ext_num_params := fun _ inc => if inc is Some false then 1000 else 1234567;
     ext_device_name := fun _ => "cpu";
     ext_current_device := 0;
     ext_local_rank := 0;
     ext_local_world_size := 1;
     ext_global_rank := 0;
     ext_world_size := 1;
     ext_clean_opt := fun s => s;
     ext_TrainConfig_load := fun _ _ => sample_cfg None false "cosine_with_warmup" |}.

(** The sample configuration with these algorithms and this W&B section. *)
Definition sample_cfg_with (algs : option (list (string * Kwargs string)))
    (wb : option string) : TrainConfig string :=
  {| run_name := Some "run"; seed := "6198"; dry_run := false; model := "model";
     optimizer := "optimizer";
     scheduler := sample_scheduler "linear_decay_with_warmup";
     algorithms := algs; wandb := wb; console_log_interval := "10";
     global_train_batch_size := 512; device_train_batch_size := None;
     device_train_microbatch_size := "auto"; max_duration := "1ep";
     precision := "amp_bf16"; fsdp_config := "None"; save_folder := "None";
     save_interval := "1ep"; save_num_checkpoints_to_keep := "-1";
     save_overwrite := "False"; load_path := "None";
     load_weights_only := "False" |}.

(** ** Reasoning about a run

    [holds Q r]: the outcome [r] of a computation (final state, result)
    satisfies [Q].  The wrapper keeps [Q] apart from the computation while a
    proof walks through the latter one call at a time. *)
Definition holds {S A : Type} (Q : S * A -> Prop) (r : S * A) : Prop := Q r.

Arguments holds : simpl never.
Arguments bind : simpl never.
Arguments extern : simpl never.
Arguments new_Trainer : simpl never.
Arguments environ_get : simpl never.
Arguments get_cfg : simpl never.
Arguments set_cfg : simpl never.
Arguments lift : simpl never.
Arguments ret : simpl never.
Arguments raise : simpl never.
Arguments build_scheduler : simpl never.
Arguments build_algorithm : simpl never.
Arguments build_algorithms : simpl never.
Arguments algorithm_items : simpl never.
Arguments format_d : simpl never.
Arguments format_comma_d : simpl never.
Arguments upper : simpl never.
Arguments String.append : simpl never.

(** * Properties *)

(** ** The dispatchers *)

Section Dispatch.

Context {Any : Type}.

Implicit Types (cfg : SchedulerConfig Any) (kwargs : Kwargs Any).

(** Decide the string comparisons of a dispatcher, first to last. *)
Ltac by_name :=
  repeat match goal with
         | |- context [String.eqb ?a ?b] =>
             destruct (String.eqb_spec a b); try congruence
         end.

Lemma build_scheduler_Return cfg (s : Scheduler Any) :
  build_scheduler cfg = Return s ->
  name cfg = "constant_with_warmup" \/ name cfg = "cosine_with_warmup" \/
  name cfg = "linear_decay_with_warmup".
Proof. unfold build_scheduler. by_name; tauto. Qed.

Lemma build_scheduler_Raise cfg (e : exn Any) :
  build_scheduler cfg = Raise e ->
  e = DolmaConfigurationError ("Not sure how to build scheduler: " +:+ name cfg)
  /\ name cfg <> "constant_with_warmup" /\ name cfg <> "cosine_with_warmup"
  /\ name cfg <> "linear_decay_with_warmup".
Proof. unfold build_scheduler. by_name. intros [= <-]. auto. Qed.

Lemma build_algorithm_Return (n : string) kwargs (a : Algorithm Any) :
  build_algorithm n kwargs = Return a ->
  n = "gradient_clipping" \/ n = "fused_layernorm" \/
  n = "gated_linear_units" \/ n = "low_precision_layernorm".
Proof. unfold build_algorithm. by_name; tauto. Qed.

Lemma build_algorithm_Raise (n : string) kwargs (e : exn Any) :
  build_algorithm n kwargs = Raise e ->
  e = ValueError ("Not sure how to build algorithm: " +:+ n)
  /\ n <> "gradient_clipping" /\ n <> "fused_layernorm"
  /\ n <> "gated_linear_units" /\ n <> "low_precision_layernorm".
Proof. unfold build_algorithm. by_name. intros [= <-]. auto. Qed.

(** C1: for a recognized name, [build_scheduler] returns the matching
    framework scheduler: [ConstantWithWarmupScheduler] built with
    [t_warmup=cfg.t_warmup] for ['constant_with_warmup'],
    [CosineAnnealingWithWarmupScheduler] built with [t_warmup=cfg.t_warmup]
    and [alpha_f=cfg.alpha_f] for ['cosine_with_warmup'], and
    [LinearWithWarmupScheduler] built with the same two for
    ['linear_decay_with_warmup']. *)
Theorem build_scheduler_recognized cfg :
  (name cfg = "constant_with_warmup" ->
   build_scheduler cfg = Return (ConstantWithWarmupScheduler (t_warmup cfg)))
  /\ (name cfg = "cosine_with_warmup" ->
      build_scheduler cfg =
      Return (CosineAnnealingWithWarmupScheduler (t_warmup cfg) (alpha_f cfg)))
  /\ (name cfg = "linear_decay_with_warmup" ->
      build_scheduler cfg =
      Return (LinearWithWarmupScheduler (t_warmup cfg) (alpha_f cfg))).
Proof.
  unfold build_scheduler.
  repeat split; intros ->; reflexivity.
Qed.

(** C2: for a recognized name, [build_algorithm] returns the matching
    framework algorithm built with the keyword arguments it was given,
    unchanged: [GradientClipping], [FusedLayerNorm], [GatedLinearUnits],
    [LowPrecisionLayerNorm]; and a name for which it returns an algorithm is
    one of these four. *)
Theorem build_algorithm_recognized kwargs :
  build_algorithm "gradient_clipping" kwargs = Return (GradientClipping kwargs)
  /\ build_algorithm "fused_layernorm" kwargs = Return (FusedLayerNorm kwargs)
  /\ build_algorithm "gated_linear_units" kwargs
     = Return (GatedLinearUnits kwargs)
  /\ build_algorithm "low_precision_layernorm" kwargs
     = Return (LowPrecisionLayerNorm kwargs)
  /\ forall (n : string) (a : Algorithm Any),
       build_algorithm n kwargs = Return a ->
       n = "gradient_clipping" \/ n = "fused_layernorm" \/
       n = "gated_linear_units" \/ n = "low_precision_layernorm".
Proof.
  repeat split; try reflexivity.
  intros n a. apply build_algorithm_Return.
Qed.

(** C3 (evaluation at an unrecognized name): for a name outside its four,
    [build_algorithm] raises a [ValueError] whose message names the
    algorithm, whatever the framework's constructors do; it is not a
    [DolmaConfigurationError], which is what [build_scheduler] raises for a
    name outside its three. *)
Theorem build_algorithm_unrecognized_raises_ValueError (c : Composer Any)
    (n : string) kwargs :
  n <> "gradient_clipping" -> n <> "fused_layernorm" ->
  n <> "gated_linear_units" -> n <> "low_precision_layernorm" ->
  build_algorithm_in c n kwargs
  = Raise (ValueError ("Not sure how to build algorithm: " +:+ n))
  /\ (forall msg : string,
        build_algorithm_in c n kwargs <> Raise (DolmaConfigurationError msg)).
Proof.
  intros H1 H2 H3 H4.
  assert (He : build_algorithm_in c n kwargs
               = Raise (ValueError ("Not sure how to build algorithm: " +:+ n))).
  { unfold build_algorithm_in, construct.
    destruct (build_algorithm n kwargs) as [a|e] eqn:Hsel.
    - apply build_algorithm_Return in Hsel. tauto.
    - apply build_algorithm_Raise in Hsel as [-> _]. reflexivity. }
  split; [exact He|].
  intros msg. rewrite He. discriminate.
Qed.


End Dispatch.

(** ** Walking through a run, one call at a time *)

Section Exec.

Context {Any : Type}.
Variable w : World Any.

Section Steps.

Context {S : Type} `{!Log (Any:=Any) S} {A B : Type}.
Implicit Types (Q : S * result (Any:=Any) B -> Prop) (s : S).

Lemma holds_bind_extern Q ev (a : A) (k : A -> M S B) s :
  (forall e, ext_raises w (history s) ev = Some e ->
             holds Q (record ev s, Raise (Propagated e))) ->
  (ext_raises w (history s) ev = None -> holds Q (k a (record ev s))) ->
  holds Q (bind (extern w ev a) k s).
Proof.
  unfold holds, bind, extern. intros Hraise Hret.
  destruct (ext_raises w (history s) ev); auto.
Qed.

Lemma holds_extern Q ev (b : B) s :
  (forall e, ext_raises w (history s) ev = Some e ->
             holds Q (record ev s, Raise (Propagated e))) ->
  (ext_raises w (history s) ev = None -> holds Q (record ev s, Return b)) ->
  holds Q (extern w ev b s).
Proof.
  unfold holds, extern. intros Hraise Hret.
  destruct (ext_raises w (history s) ev); auto.
Qed.

Lemma holds_bind_environ_get Q key dflt (k : string -> M S B) s :
  holds Q (k (default dflt (ext_environ w !! key))
             (record (ev_environ_get key dflt) s)) ->
  holds Q (bind (environ_get w key dflt) k s).
Proof. trivial. Qed.

Lemma holds_bind_ret Q (a : A) (k : A -> M S B) s :
  holds Q (k a s) -> holds Q (bind (ret a) k s).
Proof. trivial. Qed.

Lemma holds_bind_raise Q e (k : A -> M S B) s :
  holds Q (s, Raise e) -> holds Q (bind (raise e) k s).
Proof. trivial. Qed.

Lemma holds_bind_lift Q (r : result A) (k : A -> M S B) s :
  (forall a, r = Return a -> holds Q (k a s)) ->
  (forall e, r = Raise e -> holds Q (s, Raise e)) ->
  holds Q (bind (lift r) k s).
Proof. unfold holds, bind, lift. destruct r; auto. Qed.

Lemma extern_outcome ev (a : A) s s' r :
  extern w ev a s = (s', r) ->
  s' = record ev s /\ (r = Return a \/ exists e, r = Raise (Propagated e)).
Proof.
  unfold extern. destruct (ext_raises w (history s) ev); intros [= <- <-]; eauto.
Qed.

Lemma bind_Return (m : M (Any:=Any) S A) (k : A -> M S B) s s' a :
  m s = (s', Return a) -> bind m k s = k a s'.
Proof. unfold bind. intros ->. reflexivity. Qed.

Lemma bind_Raise (m : M (Any:=Any) S A) (k : A -> M S B) s s' e :
  m s = (s', Raise e) -> bind m k s = (s', Raise e).
Proof. unfold bind. intros ->. reflexivity. Qed.

Lemma holds_bind_assoc Q {C} (m : M S C) (k1 : C -> M S A) (k2 : A -> M S B) s :
  holds Q (bind m (fun x => bind (k1 x) k2) s) ->
  holds Q (bind (bind m k1) k2 s).
Proof. unfold holds, bind. destruct (m s) as [s' [c|e]]; trivial. Qed.

End Steps.

Lemma holds_bind_get_cfg {B} (Q : state Any * result B -> Prop) k s :
  holds Q (k (st_cfg s) s) -> holds Q (bind get_cfg k s).
Proof. trivial. Qed.

Lemma holds_bind_set_cfg {B} (Q : state Any * result B -> Prop) c k s :
  holds Q (k tt {| st_cfg := c; st_calls := st_calls s |}) ->
  holds Q (bind (set_cfg c) k s).
Proof. trivial. Qed.

End Exec.

(** One step of a run: the call at the head of the computation is made, in
    both of its outcomes.  [on_raise H] is run where the call raises, on the
    hypothesis [H] that says so. *)
Ltac exec_step on_raise :=
  lazymatch goal with
  | |- holds _ (bind (bind _ _) _ _) => apply holds_bind_assoc
  | |- holds _ (bind (extern _ _ _) _ _) =>
      apply holds_bind_extern;
      [let H := fresh in intros ? H; on_raise H; clear H | intros _]
  | |- holds _ (extern _ _ _ _) =>
      apply holds_extern;
      [let H := fresh in intros ? H; on_raise H; clear H | intros _]
  | |- holds _ (bind (new_Trainer _ ?kw) _ _) =>
      let t := fresh "trainer" in
      remember kw as t; unfold new_Trainer
  | |- holds _ (bind (environ_get _ _ _) _ _) => apply holds_bind_environ_get
  | |- holds _ (bind get_cfg _ _) => apply holds_bind_get_cfg
  | |- holds _ (bind (set_cfg _) _ _) => apply holds_bind_set_cfg
  | |- holds _ (bind (ret _) _ _) => apply holds_bind_ret
  | |- holds _ (bind (raise _) _ _) => apply holds_bind_raise
  | |- holds _ (bind (lift _) _ _) =>
      apply holds_bind_lift; [intros ? ? | intros ? ?]
  | |- holds _ (bind (update_batch_size_info _) _ _) =>
      unfold update_batch_size_info
  | |- holds _ (bind (assert_isinstance_int ?x) _ _) =>
      unfold assert_isinstance_int; destruct x eqn:?
  | |- holds _ (bind (match ?x with _ => _ end) _ _) => destruct x eqn:?
  | |- holds _ ((if ?b then _ else _) _) => destruct b eqn:?
  end;
  cbv beta zeta; simpl.

(** The whole of [main], with the rewriting [rw] after each step. *)
Ltac exec_main_with rw on_raise :=
  unfold main; cbv beta zeta; simpl; repeat (exec_step on_raise; rw);
  unfold holds; simpl.

Ltac exec_main := exec_main_with idtac ltac:(fun _ => idtac).

(** Name the list of calls of the current state, when it has grown. *)
Ltac name_calls :=
  try match goal with
      | |- context [Build_state _ (?c ++ [?ev])] =>
          let c' := fresh "calls" in
          remember (c ++ [ev]) as c'
      end.

(** The positions of [fit] and [close] in an explicit list of calls. *)
Ltac solve_fit_then_close :=
  lazymatch goal with
  | |- fit_once_then_close_once ?calls =>
      let i := eval lazy in (fst <$> list_find (fun ev => is_fit ev = true) calls) in
      let j := eval lazy in (fst <$> list_find (fun ev => is_close ev = true) calls) in
      lazymatch i with
      | Some ?i =>
          lazymatch j with
          | Some ?j =>
              split; [reflexivity|split; [reflexivity|]];
              eexists; exists i, j;
              split; [reflexivity|split; [reflexivity|simpl; lia]]
          end
      end
  end.

Section Runs.

Context {Any : Type}.
Variable w : World Any.

Implicit Types (cfg : TrainConfig Any) (s : state Any) (t : Trainer Any).

(** *** The trainer [main] builds *)

Lemma build_algorithms_Forall2 (items : list (string * Kwargs Any)) algs :
  build_algorithms items = Return algs ->
  Forall2 (fun item a => build_algorithm item.1 item.2 = Return a) items algs.
Proof.
  revert algs. induction items as [|[n kw] rest IH]; intros algs.
  - intros [= <-]. constructor.
  - unfold build_algorithms; fold (build_algorithms (Any:=Any)).
    destruct (build_algorithm n kw) as [a|e] eqn:Ha; [|discriminate].
    destruct (build_algorithms rest) as [l|e]; [|discriminate].
    intros [= <-]. constructor; auto.
Qed.

Lemma build_algorithms_recognized (items : list (string * Kwargs Any)) :
  Forall (fun item => exists a, build_algorithm item.1 item.2 = Return a) items ->
  exists algs, build_algorithms items = Return algs.
Proof.
  induction 1 as [|[n kw] rest [a Ha] _ [l Hl]].
  - exists []. reflexivity.
  - exists (a :: l). unfold build_algorithms; fold (build_algorithms (Any:=Any)).
    simpl in Ha. rewrite Ha, Hl. reflexivity.
Qed.

Lemma algorithm_items_Some (items : list (string * Kwargs Any)) :
  algorithm_items (Some items) = items.
Proof. destruct items; reflexivity. Qed.

Lemma In_trainers (calls : list (event Any)) t :
  In (ev_Trainer t) calls -> In t (trainers calls).
Proof.
  induction calls as [|ev rest IH]; simpl; [tauto|].
  intros [->|Hin]; [left; reflexivity|].
  destruct ev; auto. right. auto.
Qed.

(** Whatever trainer a run builds, it is built from the run name the
    configuration object holds in the end, from the scheduler that
    [build_scheduler] gives and from the algorithms that the comprehension
    gives; and a run that returns has built one. *)
Lemma main_trainer_kwargs cfg :
  holds (fun r =>
           Forall (fun t =>
                     kw_run_name t = run_name (st_cfg r.1) /\
                     build_scheduler (scheduler cfg) = Return (kw_schedulers t) /\
                     build_algorithms (algorithm_items (algorithms cfg))
                     = Return (kw_algorithms t))
                  (trainers (st_calls r.1)) /\
           (r.2 = Return tt -> exists t, trainers (st_calls r.1) = [t]))
        (run_main w cfg).
Proof.
  unfold run_main. exec_main.
  all: split; [| intros Hret; try discriminate Hret; eexists; reflexivity].
  all: repeat constructor; subst; auto.
Qed.


Lemma trainers_In (calls : list (event Any)) t :
  In t (trainers calls) -> In (ev_Trainer t) calls.
Proof.
  induction calls as [|ev rest IH]; simpl; [tauto|].
  destruct ev; simpl; try solve [intros Hin; right; auto].
  intros [->|Hin]; [left; reflexivity|right; auto].
Qed.

Lemma main_trainer cfg t :
  In (ev_Trainer t) (st_calls (run_main w cfg).1) ->
  kw_run_name t = run_name (st_cfg (run_main w cfg).1) /\
  build_scheduler (scheduler cfg) = Return (kw_schedulers t) /\
  build_algorithms (algorithm_items (algorithms cfg)) = Return (kw_algorithms t).
Proof.
  intros Hin. apply In_trainers in Hin.
  destruct (main_trainer_kwargs cfg) as [Hall _].
  rewrite Forall_forall in Hall. apply Hall, list_elem_of_In, Hin.
Qed.

Lemma main_returns_trainer cfg :
  (run_main w cfg).2 = Return tt ->
  exists t, In (ev_Trainer t) (st_calls (run_main w cfg).1).
Proof.
  intros Hret. destruct (main_trainer_kwargs cfg) as [_ Hone].
  destruct (Hone Hret) as [t Ht]. exists t.
  apply trainers_In. rewrite Ht. left. reflexivity.
Qed.

(** *** [fit] and [close] *)

(** C6 (as amended): in a run of [main] with [cfg.dry_run] false that
    returns, [trainer.fit()] is called exactly once and [trainer.close()]
    exactly once, on the same trainer, [fit] before [close]. *)
Theorem main_fit_then_close cfg :
  dry_run cfg = false ->
  (run_main w cfg).2 = Return tt ->
  fit_once_then_close_once (st_calls (run_main w cfg).1).
Proof.
  intros Hdry.
  change (holds (fun r => r.2 = Return tt ->
                          fit_once_then_close_once (st_calls r.1))
                (run_main w cfg)).
  unfold run_main.
  exec_main_with ltac:(rewrite ?Hdry; simpl) ltac:(fun _ => idtac).
  all: intros Hret; try discriminate Hret.
  all: solve_fit_then_close.
Qed.

(** C8: in a run of [main] with [cfg.dry_run] true, [trainer.fit()] is never
    called and success is never reported as 'Training complete'; when the
    run returns, [trainer.close()] was called exactly once and success was
    reported once, as 'Dry run complete'. *)
Theorem main_dry_run cfg :
  dry_run cfg = true ->
  count is_fit (st_calls (run_main w cfg).1) = 0%nat /\
  count (is_success "Training complete") (st_calls (run_main w cfg).1) = 0%nat /\
  ((run_main w cfg).2 = Return tt ->
   count is_close (st_calls (run_main w cfg).1) = 1%nat /\
   count (is_success "Dry run complete") (st_calls (run_main w cfg).1) = 1%nat).
Proof.
  intros Hdry.
  change (holds (fun r =>
                   count is_fit (st_calls r.1) = 0%nat /\
                   count (is_success "Training complete") (st_calls r.1) = 0%nat /\
                   (r.2 = Return tt ->
                    count is_close (st_calls r.1) = 1%nat /\
                    count (is_success "Dry run complete") (st_calls r.1) = 1%nat))
                (run_main w cfg)).
  unfold run_main.
  exec_main_with ltac:(rewrite ?Hdry; simpl) ltac:(fun _ => idtac).
  all: split; [reflexivity|split; [reflexivity|]].
  all: intros Hret; try discriminate Hret.
  all: split; reflexivity.
Qed.

(** *** The run name *)

(** C7: when [cfg.run_name] is [None] and [main] returns, the run name the
    configuration object holds in the end, and the one the trainer was built
    with, is the value of the environment variable COMPOSER_RUN_NAME if it
    is set and 'llm' if it is not; the variable was looked up once, with
    that default. *)
Theorem main_defaults_run_name cfg :
  run_name cfg = None ->
  (run_main w cfg).2 = Return tt ->
  let v := match ext_environ w !! "COMPOSER_RUN_NAME" with
           | Some x => x
           | None => "llm"
           end in
  run_name (st_cfg (run_main w cfg).1) = Some v /\
  count is_environ_get (st_calls (run_main w cfg).1) = 1%nat /\
  In (ev_environ_get "COMPOSER_RUN_NAME" "llm") (st_calls (run_main w cfg).1) /\
  exists t, In (ev_Trainer t) (st_calls (run_main w cfg).1) /\
            kw_run_name t = Some v.
Proof.
  intros Hnone Hret v.
  assert (Hrun : run_name (st_cfg (run_main w cfg).1) = Some v /\
                 count is_environ_get (st_calls (run_main w cfg).1) = 1%nat /\
                 In (ev_environ_get "COMPOSER_RUN_NAME" "llm")
                    (st_calls (run_main w cfg).1)).
  { revert Hret.
    change (holds (fun r => r.2 = Return tt ->
                            run_name (st_cfg r.1) = Some v /\
                            count is_environ_get (st_calls r.1) = 1%nat /\
                            In (ev_environ_get "COMPOSER_RUN_NAME" "llm")
                               (st_calls r.1))
                  (run_main w cfg)).
    unfold run_main.
    exec_main_with ltac:(rewrite ?Hnone; simpl) ltac:(fun _ => idtac).
    all: intros Hret; try discriminate Hret.
    all: split; [reflexivity|split; [reflexivity|]].
    all: do 4 right; left; reflexivity. }
  destruct Hrun as (Hfinal & Hcount & Hin).
  repeat split; trivial.
  destruct (main_returns_trainer cfg Hret) as [t Ht].
  exists t. split; [exact Ht|].
  destruct (main_trainer cfg t Ht) as [-> _]. exact Hfinal.
Qed.

(** C10: when [cfg.run_name] is already set, every run of [main], returning
    or raising, leaves it as it was, makes no lookup in the environment, and
    builds its trainer (if it gets there) with that run name. *)
Theorem main_keeps_run_name cfg (rn : string) :
  run_name cfg = Some rn ->
  run_name (st_cfg (run_main w cfg).1) = Some rn /\
  count is_environ_get (st_calls (run_main w cfg).1) = 0%nat /\
  forall t, In (ev_Trainer t) (st_calls (run_main w cfg).1) ->
            kw_run_name t = Some rn.
Proof.
  intros Hset.
  assert (Hrun : run_name (st_cfg (run_main w cfg).1) = Some rn /\
                 count is_environ_get (st_calls (run_main w cfg).1) = 0%nat).
  { change (holds (fun r => run_name (st_cfg r.1) = Some rn /\
                            count is_environ_get (st_calls r.1) = 0%nat)
                  (run_main w cfg)).
    unfold run_main.
    exec_main_with ltac:(rewrite ?Hset; simpl) ltac:(fun _ => idtac).
    all: split; [assumption || reflexivity|reflexivity]. }
  destruct Hrun as [Hfinal Hcount].
  repeat split; trivial.
  intros t Ht. destruct (main_trainer cfg t Ht) as [-> _]. exact Hfinal.
Qed.

(** *** The algorithms *)

(** C9: with [cfg.algorithms] unset the comprehension gives the empty list
    and does not raise, and the trainer is built with no algorithms; with
    [cfg.algorithms] a dict, the trainer is built with one algorithm per
    entry, the one [build_algorithm] returns for it, in the order of the
    entries.  A run that returns has built its trainer. *)
Theorem main_builds_algorithms cfg :
  (algorithms cfg = None ->
   build_algorithms (algorithm_items (algorithms cfg)) = Return [] /\
   forall t, In (ev_Trainer t) (st_calls (run_main w cfg).1) ->
             kw_algorithms t = [])
  /\ (forall items, algorithms cfg = Some items ->
      forall t, In (ev_Trainer t) (st_calls (run_main w cfg).1) ->
                Forall2 (fun item a => build_algorithm item.1 item.2 = Return a)
                        items (kw_algorithms t))
  /\ ((run_main w cfg).2 = Return tt ->
      exists t, In (ev_Trainer t) (st_calls (run_main w cfg).1)).
Proof.
  split; [|split].
  - intros Hnone. split; [rewrite Hnone; reflexivity|].
    intros t Ht. destruct (main_trainer cfg t Ht) as (_ & _ & Halgs).
    rewrite Hnone in Halgs. injection Halgs as <-. reflexivity.
  - intros items Hsome t Ht.
    destruct (main_trainer cfg t Ht) as (_ & _ & Halgs).
    rewrite Hsome, algorithm_items_Some in Halgs.
    apply build_algorithms_Forall2, Halgs.
  - apply main_returns_trainer.
Qed.

(** A run returns when no external call raises, the batch size comes back
    as an int, and the scheduler and the algorithms can be built. *)
Lemma main_returns cfg :
  (forall h ev, ext_raises w h ev = None) ->
  (forall c, (ext_update_batch_size_info w c).1 <> None) ->
  (exists sch, build_scheduler (scheduler cfg) = Return sch) ->
  (exists l, build_algorithms (algorithm_items (algorithms cfg)) = Return l) ->
  (run_main w cfg).2 = Return tt.
Proof.
  intros Hquiet Hint [sch Hsch] [algs Halgs].
  change (holds (fun r => r.2 = Return tt) (run_main w cfg)).
  unfold run_main.
  exec_main_with idtac ltac:(fun H => rewrite Hquiet in H; discriminate H).
  all: try reflexivity.
  all: try congruence.
  all: exfalso; eapply Hint; eassumption.
Qed.

(** *** The command line *)

Lemma build_algorithms_Raise (items : list (string * Kwargs Any)) e :
  build_algorithms items = Raise e -> exists msg, e = ValueError msg.
Proof.
  induction items as [|[n kw] rest IH].
  - discriminate.
  - unfold build_algorithms; fold (build_algorithms (Any:=Any)).
    destruct (build_algorithm n kw) as [a|e'] eqn:Ha.
    + destruct (build_algorithms rest) as [l|e']; [discriminate|].
      intros [= <-]. apply IH. reflexivity.
    + intros [= <-]. apply build_algorithm_Raise in Ha as [-> _]. eauto.
Qed.

(** From any state, [main] only adds to the calls made so far, and what it
    raises is never a [DolmaCliError]: it is a configuration error, a
    [ValueError], a failed assertion, or comes out of an external call. *)
Lemma main_from_state s :
  holds (fun r =>
           (forall msg, r.2 <> Raise (DolmaCliError msg)) /\
           exists new, st_calls r.1 = st_calls s ++ new)
        (main w s).
Proof.
  destruct s as [cfg calls].
  exec_main_with name_calls ltac:(fun _ => idtac).
  all: split; [intros msg; try discriminate|].
  all: try (subst; rewrite <- ?app_assoc; eexists; reflexivity).
  all: try (eexists; symmetry; apply app_nil_r).
  all: match goal with
       | H : build_scheduler _ = Raise _ |- _ =>
           apply build_scheduler_Raise in H as [-> _]
       | H : build_algorithms _ = Raise _ |- _ =>
           apply build_algorithms_Raise in H as [? ->]
       end; discriminate.
Qed.

Lemma clean_opts_cons (a : string) (rest : list string)
      (calls : list (event Any)) :
  clean_opts w (a :: rest) calls
  = match ext_raises w calls (ev_clean_opt a) with
    | Some e => (calls ++ [ev_clean_opt a], Raise (Propagated e))
    | None =>
        match clean_opts w rest (calls ++ [ev_clean_opt a]) with
        | (calls', Return os) => (calls', Return (ext_clean_opt w a :: os))
        | (calls', Raise e) => (calls', Raise e)
        end
    end.
Proof.
  change (clean_opts w (a :: rest))
    with (bind (extern w (ev_clean_opt a) (ext_clean_opt w a))
            (fun o => bind (clean_opts w rest) (fun os => ret (o :: os)))).
  unfold bind, extern, ret. simpl.
  destruct (ext_raises w calls (ev_clean_opt a)); [reflexivity|].
  destruct (clean_opts w rest (calls ++ [ev_clean_opt a])) as [c [os|e]];
    reflexivity.
Qed.

(** The options are cleaned in order; either one of the calls raises, or
    all of them are made and the cleaned options come back. *)
Lemma clean_opts_outcome (args_list : list string) (calls : list (event Any)) :
  (exists e, (clean_opts w args_list calls).2 = Raise (Propagated e)) \/
  clean_opts w args_list calls
  = (calls ++ map ev_clean_opt args_list,
     Return (map (ext_clean_opt w) args_list)).
Proof.
  revert calls. induction args_list as [|a rest IH]; intros calls.
  - right. simpl. rewrite app_nil_r. reflexivity.
  - rewrite clean_opts_cons.
    destruct (ext_raises w calls (ev_clean_opt a)) as [e|]; [left; eauto|].
    destruct (IH (calls ++ [ev_clean_opt a])) as [[e He]|Heq].
    + left. exists e.
      destruct (clean_opts w rest (calls ++ [ev_clean_opt a])) as [c [l|e']];
        simpl in *; congruence.
    + right. rewrite Heq. rewrite <- app_assoc. reflexivity.
Qed.

Lemma clean_opts_quiet (args_list : list string) (calls : list (event Any)) :
  (forall h a, ext_raises w h (ev_clean_opt a) = None) ->
  clean_opts w args_list calls
  = (calls ++ map ev_clean_opt args_list,
     Return (map (ext_clean_opt w) args_list)).
Proof.
  intros Hquiet. revert calls.
  induction args_list as [|a rest IH]; intros calls.
  - simpl. rewrite app_nil_r. reflexivity.
  - rewrite clean_opts_cons, Hquiet, IH, <- app_assoc. reflexivity.
Qed.

Lemma call_main_outcome cfg (calls : list (event Any)) :
  (forall msg, (call_main w cfg calls).2 <> Raise (DolmaCliError msg)) /\
  exists new, (call_main w cfg calls).1 = calls ++ new.
Proof.
  unfold call_main.
  pose proof (main_from_state {| st_cfg := cfg; st_calls := calls |}) as Hmain.
  unfold holds in Hmain.
  destruct (main w {| st_cfg := cfg; st_calls := calls |}) as [s r].
  exact Hmain.
Qed.

(** C5: the script was invoked, so [sys.argv[0]] holds its name, and
    [prepare_cli_environment()] has returned.  If [sys.argv] has fewer than
    two elements, the script raises [DolmaCliError] with the usage message
    and has made no other call: no configuration was loaded.  If it has two
    or more, the script does not raise [DolmaCliError]; it goes on to clean
    the options and, unless cleaning raises, calls [TrainConfig.load] with
    [sys.argv[1]] and the cleaned options. *)
Theorem script_usage_error (argv : list string) (argv0 : string) :
  argv !! 0%nat = Some argv0 ->
  ext_raises w [] ev_prepare_cli_environment = None ->
  ((length argv < 2)%nat ->
   run_script w argv
   = ([ev_prepare_cli_environment],
      Raise (DolmaCliError ("Usage: " +:+ argv0 +:+ " [CONFIG_PATH] [OPTIONS]"))))
  /\ ((2 <= length argv)%nat ->
      (forall msg, (run_script w argv).2 <> Raise (DolmaCliError msg)) /\
      exists yaml_path,
        argv !! 1%nat = Some yaml_path /\
        ((forall h a, ext_raises w h (ev_clean_opt a) = None) ->
         In (ev_TrainConfig_load yaml_path
               (map (ext_clean_opt w) (drop 2 argv)))
            (run_script w argv).1)).
Proof.
  intros Hargv0 Hprep.
  assert (Hstart : forall (k : unit -> M (list (event Any)) unit),
             bind (extern w ev_prepare_cli_environment tt) k []
             = k tt [ev_prepare_cli_environment]).
  { intros k. apply bind_Return. unfold extern. simpl.
    rewrite Hprep. reflexivity. }
  destruct argv as [|a0 [|yaml_path args_list]]; try discriminate Hargv0.
  - injection Hargv0 as ->. split; [intros _|simpl; lia].
    unfold run_script, script. rewrite Hstart. reflexivity.
  - split; [simpl; lia|intros _].
    unfold run_script, script. rewrite Hstart. simpl.
    set (calls := [ev_prepare_cli_environment]).
    split.
    + intros msg.
      destruct (clean_opts w args_list calls) as [calls1 [l|e]] eqn:Hclean.
      * rewrite (bind_Return _ _ _ _ _ Hclean).
        destruct (extern w (ev_TrainConfig_load yaml_path l)
                    (ext_TrainConfig_load w yaml_path l) calls1)
          as [calls2 [cfg|e]] eqn:Hload.
        -- rewrite (bind_Return _ _ _ _ _ Hload). apply call_main_outcome.
        -- rewrite (bind_Raise _ _ _ _ _ Hload). simpl.
           apply extern_outcome in Hload as [_ [Hr|[e' [= ->]]]]; discriminate.
      * rewrite (bind_Raise _ _ _ _ _ Hclean). simpl.
        destruct (clean_opts_outcome args_list calls) as [[e' He]|Heq].
        -- rewrite Hclean in He. simpl in He. injection He as ->. discriminate.
        -- rewrite Hclean in Heq. discriminate Heq.
    + exists yaml_path. split; [reflexivity|].
      intros Hquiet.
      rewrite (bind_Return _ _ _ _ _ (clean_opts_quiet args_list calls Hquiet)).
      set (overrides := map (ext_clean_opt w) args_list).
      set (calls1 := calls ++ map ev_clean_opt args_list).
      destruct (extern w (ev_TrainConfig_load yaml_path overrides)
                  (ext_TrainConfig_load w yaml_path overrides) calls1)
        as [calls2 [cfg|e]] eqn:Hload.
      * rewrite (bind_Return _ _ _ _ _ Hload).
        destruct (call_main_outcome cfg calls2) as [_ [new ->]].
        apply in_or_app. left.
        apply extern_outcome in Hload as [-> _].
        apply in_or_app. right. left. reflexivity.
      * rewrite (bind_Raise _ _ _ _ _ Hload). simpl.
        apply extern_outcome in Hload as [-> _].
        apply in_or_app. right. left. reflexivity.
Qed.

End Runs.

(** ** The properties on the sample inputs *)

Example build_algorithm_alibi :
  build_algorithm "alibi" (∅ : Kwargs string)
  = Raise (ValueError "Not sure how to build algorithm: alibi")
  /\ build_scheduler (sample_scheduler "alibi")
     = Raise (DolmaConfigurationError "Not sure how to build scheduler: alibi").
Proof. split; reflexivity. Qed.

Lemma build_scheduler_recognized_witness :
  build_scheduler (sample_scheduler "cosine_with_warmup")
  = Return (CosineAnnealingWithWarmupScheduler "100ba" "0.1").
Proof.
  exact (proj1 (proj2 (build_scheduler_recognized
                         (sample_scheduler "cosine_with_warmup"))) eq_refl).
Defined.

(** With no arguments after the script name the usage error is raised. *)
Lemma script_usage_error_witness :
  run_script (sample_world ∅) ["scripts/train.py"]
  = ([ev_prepare_cli_environment],
     Raise (DolmaCliError "Usage: scripts/train.py [CONFIG_PATH] [OPTIONS]")).
Proof.
  refine (proj1 (script_usage_error (sample_world ∅) ["scripts/train.py"]
                   "scripts/train.py" eq_refl eq_refl) _).
  simpl. lia.
Defined.

(** An empty [sys.argv], which running the script never produces: the
    handler itself fails on [sys.argv[0]]. *)
Example script_empty_argv :
  run_script (sample_world ∅) [] = ([ev_prepare_cli_environment], Raise IndexError).
Proof. reflexivity. Qed.

(** C6 (as stated) fails: a dry run returns without ever calling
    [trainer.fit()], and a run whose scheduler name is not recognized raises
    before a trainer exists, so neither [fit] nor [close] is called. *)
Lemma main_fit_once_counterexample :
  ((run_main (sample_world ∅) (sample_cfg None true "cosine_with_warmup")).2
   = Return tt /\
   ~ fit_once_then_close_once
       (st_calls (run_main (sample_world ∅)
                    (sample_cfg None true "cosine_with_warmup")).1))
  /\ ~ fit_once_then_close_once
         (st_calls (run_main (sample_world ∅)
                      (sample_cfg None false "exponential")).1).
Proof.
  split; [split; [reflexivity|]|].
  - intros [Hfit _]. vm_compute in Hfit. discriminate Hfit.
  - intros [Hfit _]. vm_compute in Hfit. discriminate Hfit.
Qed.

Lemma main_fit_then_close_witness :
  fit_once_then_close_once
    (st_calls (run_main (sample_world ∅)
                 (sample_cfg None false "cosine_with_warmup")).1).
Proof.
  exact (main_fit_then_close (sample_world ∅)
           (sample_cfg None false "cosine_with_warmup") eq_refl eq_refl).
Defined.

Lemma main_defaults_run_name_witness :
  run_name
    (st_cfg (run_main (sample_world {[ "COMPOSER_RUN_NAME" := "run-7" ]})
               (sample_cfg None false "cosine_with_warmup")).1)
  = Some "run-7".
Proof.
  exact (proj1 (main_defaults_run_name
                  (sample_world {[ "COMPOSER_RUN_NAME" := "run-7" ]})
                  (sample_cfg None false "cosine_with_warmup")
                  eq_refl eq_refl)).
Defined.

Example main_defaults_run_name_llm :
  run_name
    (st_cfg (run_main (sample_world ∅)
               (sample_cfg None false "cosine_with_warmup")).1)
  = Some "llm".
Proof. reflexivity. Qed.

Lemma main_dry_run_witness :
  count is_close
    (st_calls (run_main (sample_world ∅)
                 (sample_cfg None true "cosine_with_warmup")).1) = 1%nat
  /\ count (is_success "Dry run complete")
       (st_calls (run_main (sample_world ∅)
                    (sample_cfg None true "cosine_with_warmup")).1) = 1%nat.
Proof.
  exact (proj2 (proj2 (main_dry_run (sample_world ∅)
                         (sample_cfg None true "cosine_with_warmup") eq_refl))
           eq_refl).
Defined.

Lemma main_builds_algorithms_witness :
  exists t,
    In (ev_Trainer t)
       (st_calls (run_main (sample_world ∅)
                    (sample_cfg None false "cosine_with_warmup")).1)
    /\ kw_algorithms t = [GradientClipping sample_kwargs; FusedLayerNorm ∅].
Proof.
  destruct (main_builds_algorithms (sample_world ∅)
              (sample_cfg None false "cosine_with_warmup"))
    as (_ & Hsome & Hret).
  destruct (Hret eq_refl) as [t Ht]. exists t. split; [exact Ht|].
  specialize (Hsome _ eq_refl t Ht).
  remember (kw_algorithms t) as algs eqn:Halgs. clear Halgs.
  inversion Hsome as [|item1 a1 items1 algs1 H1 Hrest1]; subst.
  inversion Hrest1 as [|item2 a2 items2 algs2 H2 Hrest2]; subst.
  inversion Hrest2; subst.
  injection H1 as <-. injection H2 as <-. reflexivity.
Defined.

Lemma main_keeps_run_name_witness :
  run_name
    (st_cfg (run_main (sample_world {[ "COMPOSER_RUN_NAME" := "run-7" ]})
               (sample_cfg (Some "mine") false "cosine_with_warmup")).1)
  = Some "mine"
  /\ count is_environ_get
       (st_calls (run_main (sample_world {[ "COMPOSER_RUN_NAME" := "run-7" ]})
                    (sample_cfg (Some "mine") false "cosine_with_warmup")).1)
     = 0%nat.
Proof.
  destruct (main_keeps_run_name
              (sample_world {[ "COMPOSER_RUN_NAME" := "run-7" ]})
              (sample_cfg (Some "mine") false "cosine_with_warmup")
              "mine" eq_refl) as (Hname & Hcount & _).
  exact (conj Hname Hcount).
Defined.


Lemma build_algorithm_unrecognized_raises_ValueError_witness :
  build_algorithm_in strict_composer "alibi" ∅
  = Raise (ValueError "Not sure how to build algorithm: alibi")
  /\ (forall msg : string,
        build_algorithm_in strict_composer "alibi" ∅
        <> Raise (DolmaConfigurationError msg)).
Proof.
  apply (build_algorithm_unrecognized_raises_ValueError strict_composer
           "alibi" ∅); discriminate.
Defined.


(** For an unrecognized name no constructor is called, so the framework has
    no say. *)
Example build_scheduler_in_alibi :
  build_scheduler_in strict_composer
    {| name := "alibi"; t_warmup := "bogus"; alpha_f := "0.1" |}
  = Raise (DolmaConfigurationError "Not sure how to build scheduler: alibi")
  /\ build_algorithm_in strict_composer "alibi" ∅
     = Raise (ValueError "Not sure how to build algorithm: alibi").
Proof. split; reflexivity. Qed.


(** * Further properties *)

Section Comprehension.

Context {Any : Type}.
Variable c : Composer Any.

Implicit Types (items : list (string * Kwargs Any)).

Lemma build_algorithm_in_Return (n : string) kw (a : Algorithm Any) :
  build_algorithm_in c n kw = Return a <->
  build_algorithm n kw = Return a /\ new_algorithm_raises c a = None.
Proof.
  unfold build_algorithm_in, construct.
  destruct (build_algorithm n kw) as [a'|e'].
  - destruct (new_algorithm_raises c a') as [e'|] eqn:Hnew; split.
    + discriminate.
    + intros [[= <-] Hraises]. congruence.
    + intros [= <-]. split; trivial.
    + intros [[= <-] _]. reflexivity.
  - split; [discriminate|intros [Hsel _]; discriminate Hsel].
Qed.

Lemma build_algorithms_in_cons (n : string) kw items :
  build_algorithms_in c ((n, kw) :: items)
  = match build_algorithm_in c n kw with
    | Raise e => Raise e
    | Return a =>
        match build_algorithms_in c items with
        | Raise e => Raise e
        | Return l => Return (a :: l)
        end
    end.
Proof. reflexivity. Qed.

Lemma build_algorithms_in_Return items algs :
  build_algorithms_in c items = Return algs <->
  build_algorithms items = Return algs /\
  Forall (fun a => new_algorithm_raises c a = None) algs.
Proof.
  revert algs. induction items as [|[n kw] rest IH]; intros algs.
  - simpl. split.
    + intros [= <-]. split; [reflexivity|constructor].
    + intros [[= <-] _]. reflexivity.
  - rewrite build_algorithms_in_cons.
    unfold build_algorithms; fold (build_algorithms (Any:=Any)).
    destruct (build_algorithm_in c n kw) as [a|e] eqn:Hin.
    + apply build_algorithm_in_Return in Hin as [Hsel Hnew]. rewrite Hsel.
      destruct (build_algorithms_in c rest) as [l|e].
      * destruct (proj1 (IH l) eq_refl) as [Hl Hall]. rewrite Hl. split.
        -- intros [= <-]. split; [reflexivity|constructor; trivial].
        -- intros [[= <-] _]. reflexivity.
      * split; [discriminate|].
        destruct (build_algorithms rest) as [l|e']; [|intros [? _]; discriminate].
        intros [[= <-] Hall]. apply Forall_cons in Hall as [_ Hall].
        discriminate (proj2 (IH l) (conj eq_refl Hall)).
    + split; [discriminate|].
      destruct (build_algorithm n kw) as [a|e'] eqn:Hsel;
        [|intros [? _]; discriminate].
      destruct (build_algorithms rest) as [l|e']; [|intros [? _]; discriminate].
      intros [[= <-] Hall]. apply Forall_cons in Hall as [Hnew _].
      assert (Ha : build_algorithm_in c n kw = Return a)
        by (apply build_algorithm_in_Return; split; trivial).
      congruence.
Qed.

Lemma build_algorithms_Return_recognized items algs :
  build_algorithms items = Return algs ->
  Forall (fun item =>
            item.1 = "gradient_clipping" \/ item.1 = "fused_layernorm" \/
            item.1 = "gated_linear_units" \/
            item.1 = "low_precision_layernorm") items.
Proof.
  intros Halgs. apply build_algorithms_Forall2 in Halgs.
  induction Halgs as [|item a items' algs' Ha _ IH]; constructor; trivial.
  apply build_algorithm_Return in Ha. exact Ha.
Qed.

(** X1: with the constructor calls made, the comprehension over
    [cfg.algorithms] returns a list exactly when every entry's name selects
    a constructor and none of the constructors called raises; the list is
    then the constructed algorithms in entry order, one per entry, and every
    name is one of the four recognized ones. *)
Theorem build_algorithms_in_returns items :
  (forall algs,
     build_algorithms_in c items = Return algs <->
     build_algorithms items = Return algs /\
     Forall (fun a => new_algorithm_raises c a = None) algs)
  /\ (forall algs,
        build_algorithms_in c items = Return algs ->
        length algs = length items /\
        Forall2 (fun item a => build_algorithm item.1 item.2 = Return a)
                items algs /\
        Forall (fun item =>
                  item.1 = "gradient_clipping" \/ item.1 = "fused_layernorm" \/
                  item.1 = "gated_linear_units" \/
                  item.1 = "low_precision_layernorm") items).
Proof.
  split; [intros algs; apply build_algorithms_in_Return|].
  intros algs Halgs. apply build_algorithms_in_Return in Halgs as [Halgs _].
  pose proof (build_algorithms_Forall2 _ _ Halgs) as Hall.
  split; [symmetry; eapply Forall2_length; exact Hall|].
  split; [exact Hall|].
  eapply build_algorithms_Return_recognized. exact Halgs.
Qed.

(** X2: the comprehension stops at the first entry that fails, and raises
    what that entry raised: the [ValueError] of an unrecognized name, or
    whatever the entry's constructor raised.  Entries after it are not
    looked at. *)
Theorem build_algorithms_in_first_failure items1 (n : string)
    (kw : Kwargs Any) items2 (e : exn Any) :
  (exists algs1, build_algorithms_in c items1 = Return algs1) ->
  build_algorithm_in c n kw = Raise e ->
  build_algorithms_in c (items1 ++ (n, kw) :: items2) = Raise e.
Proof.
  intros [algs1 Halgs1] He. revert algs1 Halgs1.
  induction items1 as [|[n1 kw1] rest IH]; intros algs1 Halgs1.
  - simpl app. rewrite build_algorithms_in_cons, He. reflexivity.
  - simpl app. rewrite build_algorithms_in_cons in Halgs1 |- *.
    destruct (build_algorithm_in c n1 kw1) as [a|e1]; [|discriminate].
    destruct (build_algorithms_in c rest) as [l|e1] eqn:Hrest; [|discriminate].
    rewrite (IH l eq_refl). reflexivity.
Qed.

End Comprehension.

Section CommandLine.

Context {Any : Type}.
Variable w : World Any.

Implicit Types (calls : list (event Any)) (args_list : list string).

(** A computation that only adds to the calls made so far. *)
Lemma extends_ret {A} (a : A) : extends (S:=state Any) (ret a).
Proof. intros s. exists []. simpl. rewrite app_nil_r. reflexivity. Qed.

Lemma extends_raise {A} e : extends (S:=state Any) (A:=A) (raise e).
Proof. intros s. exists []. simpl. rewrite app_nil_r. reflexivity. Qed.

Lemma extends_lift {A} (r : result A) : extends (S:=state Any) (lift r).
Proof. intros s. exists []. simpl. rewrite app_nil_r. reflexivity. Qed.

Lemma extends_get_cfg : extends (get_cfg (Any:=Any)).
Proof. intros s. exists []. simpl. rewrite app_nil_r. reflexivity. Qed.

Lemma extends_set_cfg c : extends (set_cfg (Any:=Any) c).
Proof. intros s. exists []. simpl. rewrite app_nil_r. reflexivity. Qed.

Lemma extends_extern {A} ev (a : A) : extends (S:=state Any) (extern w ev a).
Proof.
  intros s. exists [ev]. unfold extern.
  destruct (ext_raises w (history s) ev); reflexivity.
Qed.

Lemma extends_environ_get key dflt :
  extends (S:=state Any) (environ_get w key dflt).
Proof. intros s. exists [ev_environ_get key dflt]. reflexivity. Qed.

Lemma extends_bind {A B} (m : M (state Any) A) (k : A -> M (state Any) B) :
  extends m -> (forall a, extends (k a)) -> extends (bind m k).
Proof.
  intros Hm Hk s. unfold bind.
  destruct (Hm s) as [new1 H1].
  destruct (m s) as [s1 [a|e]]; simpl in *.
  - destruct (Hk a s1) as [new2 H2]. exists (new1 ++ new2).
    simpl in H2. rewrite H2, H1, app_assoc. reflexivity.
  - exists new1. exact H1.
Qed.


(** Build [extends] for a computation from its parts. *)
Ltac extends_tac :=
  repeat first
    [ apply extends_bind; [|intros ?]
    | apply extends_extern
    | apply extends_environ_get
    | apply extends_ret
    | apply extends_raise
    | apply extends_lift
    | apply extends_get_cfg
    | apply extends_set_cfg
    | progress unfold update_batch_size_info, assert_isinstance_int, new_Trainer
    | match goal with
      | |- extends (match ?x with _ => _ end) => destruct x
      end ].

Lemma holds_starts {A B} ev (a : A) (k : A -> M (state Any) B) s :
  (forall a', extends (k a')) ->
  holds (fun r => exists rest, st_calls r.1 = st_calls s ++ ev :: rest)
        (bind (extern w ev a) k s).
Proof.
  intros Hk. unfold holds, bind, extern.
  destruct (ext_raises w (history s) ev).
  - exists []. reflexivity.
  - destruct (Hk a (record ev s)) as [new Hnew]. exists new.
    simpl in *. rewrite Hnew, <- app_assoc. reflexivity.
Qed.

(** [main] begins by echoing the configuration it was given. *)
Lemma main_starts s :
  exists rest,
    st_calls (main w s).1
    = st_calls s
      ++ ev_echo_info [arg_str "Configuration:"; arg_cfg (st_cfg s)] (Some true)
      :: rest.
Proof.
  change (holds (fun r => exists rest,
                     st_calls r.1
                     = st_calls s
                       ++ ev_echo_info
                            [arg_str "Configuration:"; arg_cfg (st_cfg s)]
                            (Some true)
                       :: rest)
                (main w s)).
  unfold main. apply holds_bind_get_cfg. cbv beta.
  apply holds_starts. intros _. extends_tac.
Qed.

Lemma clean_opts_app_quiet (pre rest : list string) calls :
  (forall h a, In a pre -> ext_raises w h (ev_clean_opt a) = None) ->
  clean_opts w (pre ++ rest) calls
  = match clean_opts w rest (calls ++ map ev_clean_opt pre) with
    | (calls', Return os) => (calls', Return (map (ext_clean_opt w) pre ++ os))
    | (calls', Raise e) => (calls', Raise e)
    end.
Proof.
  revert calls. induction pre as [|a pre IH]; intros calls Hquiet.
  - simpl. rewrite app_nil_r.
    destruct (clean_opts w rest calls) as [c [os|e]]; reflexivity.
  - simpl app. rewrite clean_opts_cons, Hquiet by (left; reflexivity).
    rewrite IH by (intros h a' Hin; apply Hquiet; right; exact Hin).
    simpl map. rewrite <- app_assoc. simpl app.
    destruct (clean_opts w rest _) as [c [os|e]]; reflexivity.
Qed.

Lemma script_with_path (argv0 yaml_path : string) args_list :
  ext_raises w [] ev_prepare_cli_environment = None ->
  run_script w (argv0 :: yaml_path :: args_list)
  = bind (clean_opts w args_list)
      (fun overrides =>
         bind (extern w (ev_TrainConfig_load yaml_path overrides)
                 (ext_TrainConfig_load w yaml_path overrides))
              (call_main w))
      [ev_prepare_cli_environment].
Proof.
  intros Hprep. unfold run_script, script.
  erewrite bind_Return; [reflexivity|].
  unfold extern. simpl. rewrite Hprep. reflexivity.
Qed.

(** X3: with a configuration path on the command line, and
    [prepare_cli_environment], [clean_opt] and [TrainConfig.load] not
    raising, the script cleans exactly the arguments after the path, each
    once and in order, loads the configuration from the path with the
    cleaned options, and starts [main] on the configuration that
    [TrainConfig.load] returned. *)
Theorem script_loads_then_runs_main (argv0 yaml_path : string) args_list :
  ext_raises w [] ev_prepare_cli_environment = None ->
  (forall h a, ext_raises w h (ev_clean_opt a) = None) ->
  ext_raises w (ev_prepare_cli_environment :: map ev_clean_opt args_list)
    (ev_TrainConfig_load yaml_path (map (ext_clean_opt w) args_list)) = None ->
  exists rest,
    (run_script w (argv0 :: yaml_path :: args_list)).1
    = ev_prepare_cli_environment :: map ev_clean_opt args_list
      ++ ev_TrainConfig_load yaml_path (map (ext_clean_opt w) args_list)
      :: ev_echo_info
           [arg_str "Configuration:";
            arg_cfg (ext_TrainConfig_load w yaml_path
                       (map (ext_clean_opt w) args_list))]
           (Some true)
      :: rest.
Proof.
  intros Hprep Hclean Hload.
  rewrite (script_with_path _ _ _ Hprep).
  rewrite (bind_Return _ _ _ _ _ (clean_opts_quiet w args_list _ Hclean)).
  erewrite bind_Return; cycle 1.
  { unfold extern. simpl. rewrite Hload. reflexivity. }
  unfold call_main.
  destruct (main_starts
              {| st_cfg := ext_TrainConfig_load w yaml_path
                             (map (ext_clean_opt w) args_list);
                 st_calls := (ev_prepare_cli_environment
                              :: map ev_clean_opt args_list)
                             ++ [ev_TrainConfig_load yaml_path
                                   (map (ext_clean_opt w) args_list)] |})
    as [rest Hrest].
  exists rest. simpl in *.
  destruct (main w _) as [s r]. simpl in *. rewrite Hrest.
  rewrite <- app_assoc. reflexivity.
Qed.

(** X4: when [clean_opt] raises on one of the options, the options after it
    are not cleaned, no configuration is loaded, [main] does not run, and
    the exception comes out of the script. *)
Theorem script_clean_opt_raises (argv0 yaml_path : string)
    (pre : list string) (a : string) (post : list string) (e : Any) :
  ext_raises w [] ev_prepare_cli_environment = None ->
  (forall h a', In a' pre -> ext_raises w h (ev_clean_opt a') = None) ->
  ext_raises w (ev_prepare_cli_environment :: map ev_clean_opt pre)
    (ev_clean_opt a) = Some e ->
  run_script w (argv0 :: yaml_path :: pre ++ a :: post)
  = (ev_prepare_cli_environment :: map ev_clean_opt pre ++ [ev_clean_opt a],
     Raise (Propagated e)).
Proof.
  intros Hprep Hpre Ha.
  rewrite (script_with_path _ _ _ Hprep).
  apply bind_Raise.
  rewrite (clean_opts_app_quiet _ _ _ Hpre), clean_opts_cons. simpl app.
  rewrite Ha. reflexivity.
Qed.

(** X5: when [TrainConfig.load] raises, the script has made no call of
    [main] (the load is its last call) and the exception comes out of the
    script. *)
Theorem script_load_raises (argv0 yaml_path : string) args_list (e : Any) :
  ext_raises w [] ev_prepare_cli_environment = None ->
  (forall h a, ext_raises w h (ev_clean_opt a) = None) ->
  ext_raises w (ev_prepare_cli_environment :: map ev_clean_opt args_list)
    (ev_TrainConfig_load yaml_path (map (ext_clean_opt w) args_list)) = Some e ->
  run_script w (argv0 :: yaml_path :: args_list)
  = (ev_prepare_cli_environment :: map ev_clean_opt args_list
     ++ [ev_TrainConfig_load yaml_path (map (ext_clean_opt w) args_list)],
     Raise (Propagated e)).
Proof.
  intros Hprep Hclean Hload.
  rewrite (script_with_path _ _ _ Hprep).
  rewrite (bind_Return _ _ _ _ _ (clean_opts_quiet w args_list _ Hclean)).
  apply bind_Raise. unfold extern. simpl. rewrite Hload. reflexivity.
Qed.

End CommandLine.

Section MoreRuns.

Context {Any : Type}.
Variable w : World Any.

Implicit Types (cfg : TrainConfig Any) (calls : list (event Any))
  (t : Trainer Any).

Lemma preceded_by_sound (p q : event Any -> bool) calls :
  preceded_by p q calls = true ->
  forall i ev, calls !! i = Some ev -> q ev = true ->
  exists j ev', (j < i)%nat /\ calls !! j = Some ev' /\ p ev' = true.
Proof.
  induction calls as [|ev0 rest IH]; intros Hpre i ev Hi Hq.
  - destruct i; discriminate Hi.
  - simpl in Hpre. destruct i as [|i].
    + injection Hi as ->. rewrite Hq in Hpre. discriminate Hpre.
    + destruct (q ev0); [discriminate Hpre|].
      destruct (p ev0) eqn:Hp.
      * exists 0%nat, ev0. repeat split; [lia|exact Hp].
      * destruct (IH Hpre i ev Hi Hq) as (j & ev' & Hlt & Hj & Hp').
        exists (S j), ev'. repeat split; [lia|exact Hj|exact Hp'].
Qed.

Lemma In_seeds calls (s : Any) : In (ev_seed_all s) calls -> In s (seeds calls).
Proof.
  induction calls as [|ev rest IH]; simpl; [tauto|].
  intros [->|Hin]; [left; reflexivity|].
  destruct ev; auto. right. auto.
Qed.

Lemma In_dataloaders calls cfg (b : Z) :
  In (ev_build_dataloader cfg b) calls -> In (cfg, b) (dataloaders calls).
Proof.
  induction calls as [|ev rest IH]; simpl; [tauto|].
  intros [->|Hin]; [left; reflexivity|].
  destruct ev; auto. right. auto.
Qed.

Lemma In_trainers_used calls t :
  In (ev_device_name t) calls \/ In (ev_fit t) calls \/ In (ev_close t) calls ->
  In t (trainers_used calls).
Proof.
  induction calls as [|ev rest IH]; simpl; [tauto|].
  intros [[->|Hin]|[[->|Hin]|[->|Hin]]]; try (left; reflexivity);
    destruct ev; auto; right; auto.
Qed.

(** What comes before what in a run, returning or raising. *)
Lemma main_order cfg :
  holds (fun r =>
           preceded_by is_seed_all is_ComposerDolmaGPT (st_calls r.1) = true /\
           preceded_by is_initialize_dist is_ComposerDolmaGPT (st_calls r.1)
           = true /\
           preceded_by is_Trainer uses_trainer (st_calls r.1) = true /\
           Forall (fun s => s = seed cfg) (seeds (st_calls r.1)) /\
           (length (trainers (st_calls r.1)) <= 1)%nat /\
           Forall (fun t => trainers (st_calls r.1) = [t])
                  (trainers_used (st_calls r.1)) /\
           (forall t, last (st_calls r.1) = Some (ev_fit t) ->
                      count is_close (st_calls r.1) = 0%nat /\
                      exists e, r.2 = Raise (Propagated e)))
        (run_main w cfg).
Proof.
  unfold run_main. exec_main.
  all: split; [reflexivity|].
  all: split; [reflexivity|].
  all: split; [reflexivity|].
  all: split; [repeat constructor|].
  all: split; [simpl; lia|].
  all: split; [repeat constructor|].
  all: intros t Hlast; try discriminate Hlast.
  all: split; [reflexivity|eexists; reflexivity].
Qed.

(** X6: in every run of [main], whenever the model is constructed,
    [seed_all(cfg.seed)] and [initialize_dist] have been called before. *)
Theorem main_seeds_before_model cfg (i : nat) (model_cfg : Any) :
  st_calls (run_main w cfg).1 !! i = Some (ev_ComposerDolmaGPT model_cfg) ->
  exists j k,
    (j < i)%nat /\ (k < i)%nat /\
    st_calls (run_main w cfg).1 !! j = Some (ev_seed_all (seed cfg)) /\
    st_calls (run_main w cfg).1 !! k = Some (ev_initialize_dist get_device_None).
Proof.
  intros Hi.
  destruct (main_order cfg) as (Hseed & Hdist & _ & Hseeds & _).
  destruct (preceded_by_sound _ _ _ Hseed i _ Hi eq_refl)
    as (j & ev1 & Hj & Hev1 & Hp1).
  destruct (preceded_by_sound _ _ _ Hdist i _ Hi eq_refl)
    as (k & ev2 & Hk & Hev2 & Hp2).
  exists j, k. repeat split; trivial.
  - destruct ev1; try discriminate Hp1.
    rewrite Hev1. do 2 f_equal.
    rewrite Forall_forall in Hseeds. apply Hseeds.
    apply list_elem_of_In, In_seeds, list_elem_of_In.
    eapply list_elem_of_lookup_2. exact Hev1.
  - destruct ev2 as [| | | | | | |d| | | | | | | | | | | | | | | | | |];
      try discriminate Hp2.
    destruct d. exact Hev2.
Qed.

(** X7: a run of [main] builds at most one trainer, and every call of
    [fit], [close] or the device-name lookup is made on that trainer, after
    it was built. *)
Theorem main_one_trainer cfg :
  (length (trainers (st_calls (run_main w cfg).1)) <= 1)%nat /\
  forall t,
    In (ev_device_name t) (st_calls (run_main w cfg).1) \/
    In (ev_fit t) (st_calls (run_main w cfg).1) \/
    In (ev_close t) (st_calls (run_main w cfg).1) ->
    trainers (st_calls (run_main w cfg).1) = [t] /\
    forall i ev, st_calls (run_main w cfg).1 !! i = Some ev ->
                 uses_trainer ev = true ->
                 exists j, (j < i)%nat /\
                           st_calls (run_main w cfg).1 !! j = Some (ev_Trainer t).
Proof.
  destruct (main_order cfg) as (_ & _ & Hbuilt & _ & Hone & Hused & _).
  split; [exact Hone|].
  intros t Hin. apply In_trainers_used in Hin.
  rewrite Forall_forall in Hused.
  pose proof (Hused t (proj2 (list_elem_of_In _ _) Hin)) as Ht.
  split; [exact Ht|].
  intros i ev Hi Huse.
  destruct (preceded_by_sound _ _ _ Hbuilt i ev Hi Huse)
    as (j & ev' & Hj & Hev' & Hp).
  exists j. split; [exact Hj|].
  destruct ev'; try discriminate Hp.
  rewrite Hev'. do 2 f_equal.
  assert (Hk : In kw (trainers (st_calls (run_main w cfg).1))).
  { apply In_trainers. apply list_elem_of_In.
    eapply list_elem_of_lookup_2. exact Hev'. }
  rewrite Ht in Hk. destruct Hk as [<-|[]]. reflexivity.
Qed.

(** X8: there is no clean-up when training fails: in a run whose last call
    is [trainer.fit()], [trainer.close()] was never called, and [main]
    raises what came out of [fit]. *)
Theorem main_fit_raises_no_close cfg t :
  last (st_calls (run_main w cfg).1) = Some (ev_fit t) ->
  count is_close (st_calls (run_main w cfg).1) = 0%nat /\
  exists e, (run_main w cfg).2 = Raise (Propagated e).
Proof.
  destruct (main_order cfg) as (_ & _ & _ & _ & _ & _ & Hlast).
  apply Hlast.
Qed.

Lemma count_In (p : event Any -> bool) calls ev :
  In ev calls -> p ev = true -> count p calls <> 0%nat.
Proof.
  induction calls as [|ev0 rest IH]; simpl; [tauto|].
  intros [->|Hin] Hp; [rewrite Hp; lia|].
  specialize (IH Hin Hp). lia.
Qed.

Lemma count_none (p : event Any -> bool) calls :
  (forall ev, In ev calls -> p ev = true -> False) ->
  count p calls = 0%nat.
Proof.
  induction calls as [|ev0 rest IH]; simpl; [reflexivity|].
  intros Hnone. rewrite IH by (intros ev Hin; apply Hnone; right; exact Hin).
  destruct (p ev0) eqn:Hp; [|reflexivity].
  destruct (Hnone ev0 (or_introl eq_refl) Hp).
Qed.

(** How far a run can have got, returning or raising: the model is built
    only once the batch size was found to be an int, and the data loader
    only once [build_scheduler] has selected a scheduler. *)
Lemma main_gates cfg :
  holds (fun r =>
           (count is_ComposerDolmaGPT (st_calls r.1) <> 0%nat ->
            count is_update_batch_size_info (st_calls r.1) = 1%nat /\
            exists b, device_train_batch_size (st_cfg r.1) = Some b) /\
           (count is_build_dataloader (st_calls r.1) <> 0%nat ->
            count is_configure_optimizer (st_calls r.1) = 1%nat /\
            exists sch, build_scheduler (scheduler cfg) = Return sch))
        (run_main w cfg).
Proof.
  unfold run_main. exec_main.
  all: split; intros Hn; try (exfalso; apply Hn; reflexivity).
  all: split; [reflexivity|].
  all: eexists; first [reflexivity|eassumption].
Qed.


(** X10: a configuration with an algorithm name that is not recognized
    never gets a trainer: in every run of [main], whatever the external
    calls do, no trainer is built, so nothing is trained or closed, and
    [main] does not return. *)
Theorem main_unrecognized_algorithm_stops cfg (n : string) (kw : Kwargs Any) :
  In (n, kw) (algorithm_items (algorithms cfg)) ->
  n <> "gradient_clipping" -> n <> "fused_layernorm" ->
  n <> "gated_linear_units" -> n <> "low_precision_layernorm" ->
  trainers (st_calls (run_main w cfg).1) = [] /\
  count is_fit (st_calls (run_main w cfg).1) = 0%nat /\
  count is_close (st_calls (run_main w cfg).1) = 0%nat /\
  exists e, (run_main w cfg).2 = Raise e.
Proof.
  intros Hin H1 H2 H3 H4.
  assert (Hno : forall algs,
             build_algorithms (algorithm_items (algorithms cfg))
             <> Return algs).
  { intros algs Halgs. apply build_algorithms_Return_recognized in Halgs.
    rewrite Forall_forall in Halgs.
    specialize (Halgs (n, kw) (proj2 (list_elem_of_In _ _) Hin)).
    simpl in Halgs. tauto. }
  assert (Htr : trainers (st_calls (run_main w cfg).1) = []).
  { destruct (trainers (st_calls (run_main w cfg).1)) as [|t l] eqn:Ht;
      [reflexivity|].
    assert (Hin' : In (ev_Trainer t) (st_calls (run_main w cfg).1))
      by (apply trainers_In; rewrite Ht; left; reflexivity).
    apply main_trainer in Hin' as (_ & _ & Halgs).
    destruct (Hno _ Halgs). }
  destruct (main_order cfg) as (_ & _ & _ & _ & _ & Hused & _).
  rewrite Htr in Hused.
  assert (Hnone : forall ev, In ev (st_calls (run_main w cfg).1) ->
                             uses_trainer ev = false).
  { intros ev Hev. destruct (uses_trainer ev) eqn:Huse; [|reflexivity].
    exfalso. rewrite Forall_forall in Hused.
    assert (Ht : exists t, In t (trainers_used (st_calls (run_main w cfg).1))).
    { destruct ev; try discriminate Huse;
        eexists; apply In_trainers_used; eauto. }
    destruct Ht as [t Ht].
    specialize (Hused t (proj2 (list_elem_of_In _ _) Ht)). discriminate Hused. }
  split; [exact Htr|].
  split; [|split].
  - apply count_none. intros ev Hev Hp. specialize (Hnone ev Hev).
    destruct ev; discriminate.
  - apply count_none. intros ev Hev Hp. specialize (Hnone ev Hev).
    destruct ev; discriminate.
  - destruct ((run_main w cfg).2) as [[]|e] eqn:Hr; [|eauto].
    apply main_returns_trainer in Hr as [t Ht].
    apply In_trainers in Ht. rewrite Htr in Ht. destruct Ht.
Qed.

(** X11: the model is only built on an int batch size: in every run of
    [main] in which [ComposerDolmaGPT] is called, [update_batch_size_info]
    has been called once and [cfg.device_train_batch_size] holds an int. *)
Theorem main_model_needs_batch_size cfg (model_cfg : Any) :
  In (ev_ComposerDolmaGPT model_cfg) (st_calls (run_main w cfg).1) ->
  count is_update_batch_size_info (st_calls (run_main w cfg).1) = 1%nat /\
  exists b, device_train_batch_size (st_cfg (run_main w cfg).1) = Some b.
Proof.
  intros Hin. destruct (main_gates cfg) as [Hmodel _].
  apply Hmodel. eapply count_In; [exact Hin|reflexivity].
Qed.

(** The result of [main] when no external call raises and the batch size
    comes back as an int. *)
Lemma main_result_quiet cfg :
  (forall h ev, ext_raises w h ev = None) ->
  (forall c, (ext_update_batch_size_info w c).1 <> None) ->
  (run_main w cfg).2
  = match build_scheduler (scheduler cfg) with
    | Raise e => Raise e
    | Return _ =>
        match build_algorithms (algorithm_items (algorithms cfg)) with
        | Raise e => Raise e
        | Return _ => Return tt
        end
    end.
Proof.
  intros Hquiet Hint.
  change (holds (fun r =>
                   r.2 = match build_scheduler (scheduler cfg) with
                         | Raise e => Raise e
                         | Return _ =>
                             match build_algorithms
                                     (algorithm_items (algorithms cfg)) with
                             | Raise e => Raise e
                             | Return _ => Return tt
                             end
                         end)
                (run_main w cfg)).
  unfold run_main.
  exec_main_with idtac ltac:(fun H => rewrite Hquiet in H; discriminate H).
  all: try (exfalso; eapply Hint; eassumption).
  all: repeat match goal with
              | H : build_scheduler _ = _ |- _ => rewrite H; clear H
              | H : build_algorithms _ = _ |- _ => rewrite H; clear H
              end.
  all: reflexivity.
Qed.

(** X12: the scheduler is checked before the algorithms.  When no external
    call raises and the batch size comes back as an int, a configuration
    with an unrecognized scheduler name makes [main] raise the
    [DolmaConfigurationError] that names the scheduler, whether or not the
    algorithm names are recognized. *)
Theorem main_scheduler_checked_first cfg :
  (forall h ev, ext_raises w h ev = None) ->
  (forall c, (ext_update_batch_size_info w c).1 <> None) ->
  name (scheduler cfg) <> "constant_with_warmup" ->
  name (scheduler cfg) <> "cosine_with_warmup" ->
  name (scheduler cfg) <> "linear_decay_with_warmup" ->
  (run_main w cfg).2
  = Raise (DolmaConfigurationError
             ("Not sure how to build scheduler: " +:+ name (scheduler cfg))).
Proof.
  intros Hquiet Hint H1 H2 H3.
  rewrite (main_result_quiet cfg Hquiet Hint).
  destruct (build_scheduler (scheduler cfg)) as [sch|e] eqn:Hsch.
  - apply build_scheduler_Return in Hsch. tauto.
  - apply build_scheduler_Raise in Hsch as [-> _]. reflexivity.
Qed.

(** X13: [main] returns only on recognized names: in every run of [main]
    that returns, the scheduler name is one of the three recognized ones and
    every algorithm name is one of the four recognized ones. *)
Theorem main_returns_recognized cfg :
  (run_main w cfg).2 = Return tt ->
  (name (scheduler cfg) = "constant_with_warmup" \/
   name (scheduler cfg) = "cosine_with_warmup" \/
   name (scheduler cfg) = "linear_decay_with_warmup") /\
  Forall (fun item =>
            item.1 = "gradient_clipping" \/ item.1 = "fused_layernorm" \/
            item.1 = "gated_linear_units" \/
            item.1 = "low_precision_layernorm")
         (algorithm_items (algorithms cfg)).
Proof.
  intros Hr. apply main_returns_trainer in Hr as [t Hin].
  apply main_trainer in Hin as (_ & Hsch & Halgs). split.
  - eapply build_scheduler_Return. exact Hsch.
  - eapply build_algorithms_Return_recognized. exact Halgs.
Qed.

(** What [main] hands to the data loader and to the trainer. *)
Lemma main_built cfg :
  holds (fun r =>
           Forall (fun cb =>
                     cb.1 = st_cfg r.1 /\
                     device_train_batch_size (st_cfg r.1) = Some cb.2)
                  (dataloaders (st_calls r.1)) /\
           Forall (fun t =>
                     kw_callbacks t = [SpeedMonitorMFU] /\
                     kw_loggers t
                     = DolmaConsoleLogger (console_log_interval cfg)
                       :: match wandb cfg with
                          | Some wandb_cfg => [WandBLogger wandb_cfg]
                          | None => []
                          end /\
                     kw_progress_bar t = false /\
                     kw_log_to_console t = false /\
                     kw_model t = ComposerDolmaGPT (model cfg) /\
                     kw_optimizers t
                     = configure_optimizer_of (ComposerDolmaGPT (model cfg))
                         (optimizer cfg) /\
                     kw_device_train_microbatch_size t
                     = device_train_microbatch_size (st_cfg r.1) /\
                     (String.eqb (upper (ext_device_name w t)) "GPU" = false ->
                      count is_cuda_current_device (st_calls r.1) = 0%nat) /\
                     exists b,
                       device_train_batch_size (st_cfg r.1) = Some b /\
                       kw_train_dataloader t
                       = build_dataloader_of (st_cfg r.1) b)
                  (trainers (st_calls r.1)) /\
           (count is_cuda_current_device (st_calls r.1)
            <= length (trainers (st_calls r.1)))%nat)
        (run_main w cfg).
Proof.
  unfold run_main. exec_main.
  all: split; [repeat constructor; simpl; trivial|].
  all: split; [|simpl; lia].
  all: first [solve [constructor]|constructor; [|solve [constructor]]].
  all: subst; simpl.
  all: do 7 (split; [reflexivity|]).
  all: split; [intros Hcpu; first [reflexivity|congruence]|].
  all: eexists; split; [first [reflexivity|eassumption]|reflexivity].
Qed.

(** X14: the data loader is built from the configuration object as
    [update_batch_size_info] left it, with the per-device batch size that
    object holds. *)
Theorem main_dataloader_batch_size cfg (c : TrainConfig Any) (b : Z) :
  In (ev_build_dataloader c b) (st_calls (run_main w cfg).1) ->
  c = st_cfg (run_main w cfg).1 /\
  device_train_batch_size (st_cfg (run_main w cfg).1) = Some b.
Proof.
  intros Hin. destruct (main_built cfg) as (Hload & _).
  rewrite Forall_forall in Hload.
  apply (Hload (c, b)), list_elem_of_In, In_dataloaders, Hin.
Qed.

(** X15: the trainer is built with the one callback [SpeedMonitorMFU], with
    the console logger first and the W&B logger after it exactly when
    [cfg.wandb] is set, and with the framework's own progress bar and
    console logging switched off. *)
Theorem main_trainer_loggers cfg t :
  In (ev_Trainer t) (st_calls (run_main w cfg).1) ->
  kw_callbacks t = [SpeedMonitorMFU] /\
  kw_loggers t
  = DolmaConsoleLogger (console_log_interval cfg)
    :: match wandb cfg with
       | Some wandb_cfg => [WandBLogger wandb_cfg]
       | None => []
       end /\
  kw_progress_bar t = false /\
  kw_log_to_console t = false.
Proof.
  intros Hin. destruct (main_built cfg) as (_ & Htr & _).
  rewrite Forall_forall in Htr.
  apply In_trainers, list_elem_of_In in Hin.
  destruct (Htr t Hin) as (H1 & H2 & H3 & H4 & _).
  repeat split; assumption.
Qed.

(** X16: the parts of the trainer belong together: its optimizer was
    configured on the very model it trains, [ComposerDolmaGPT(cfg.model)],
    and its data loader and microbatch size are the ones of the
    configuration object as [update_batch_size_info] left it. *)
Theorem main_trainer_parts cfg t :
  In (ev_Trainer t) (st_calls (run_main w cfg).1) ->
  kw_model t = ComposerDolmaGPT (model cfg) /\
  kw_optimizers t = configure_optimizer_of (kw_model t) (optimizer cfg) /\
  kw_device_train_microbatch_size t
  = device_train_microbatch_size (st_cfg (run_main w cfg).1) /\
  exists b,
    device_train_batch_size (st_cfg (run_main w cfg).1) = Some b /\
    kw_train_dataloader t = build_dataloader_of (st_cfg (run_main w cfg).1) b.
Proof.
  intros Hin. destruct (main_built cfg) as (_ & Htr & _).
  rewrite Forall_forall in Htr.
  apply In_trainers, list_elem_of_In in Hin.
  destruct (Htr t Hin) as (_ & _ & _ & _ & Hm & Ho & Hmb & _ & Hb).
  rewrite Hm. repeat split; assumption.
Qed.

(** X17: [torch.cuda.current_device()] is called at most once, and never
    in a run that builds no trainer or whose trainer's device name does not
    uppercase to 'GPU'. *)
Theorem main_cuda_only_on_gpu cfg :
  (count is_cuda_current_device (st_calls (run_main w cfg).1) <= 1)%nat /\
  (trainers (st_calls (run_main w cfg).1) = [] ->
   count is_cuda_current_device (st_calls (run_main w cfg).1) = 0%nat) /\
  forall t, In (ev_Trainer t) (st_calls (run_main w cfg).1) ->
            upper (ext_device_name w t) <> "GPU" ->
            count is_cuda_current_device (st_calls (run_main w cfg).1) = 0%nat.
Proof.
  destruct (main_built cfg) as (_ & Htr & Hle).
  destruct (main_order cfg) as (_ & _ & _ & _ & Hone & _).
  split; [lia|]. split.
  - intros Hnil. rewrite Hnil in Hle. simpl in Hle. lia.
  - intros t Hin Hcpu. rewrite Forall_forall in Htr.
    apply In_trainers, list_elem_of_In in Hin.
    destruct (Htr t Hin) as (_ & _ & _ & _ & _ & _ & _ & Hgpu & _).
    apply Hgpu, String.eqb_neq, Hcpu.
Qed.

End MoreRuns.

(** ** The further properties on the sample inputs *)

(** The constructor's refusal of the second entry wins over the
    unrecognized name after it. *)
Lemma build_algorithms_in_first_failure_witness :
  build_algorithms_in strict_composer
    ([("fused_layernorm", ∅)]
     ++ ("gradient_clipping", ∅) :: [("alibi", ∅)])
  = Raise (Propagated "TypeError: missing argument 'clipping_type'").
Proof.
  apply (build_algorithms_in_first_failure strict_composer
           [("fused_layernorm", ∅)] "gradient_clipping" ∅ [("alibi", ∅)]);
    [eexists; reflexivity|reflexivity].
Defined.

(** An unrecognized name in front is reported before the constructor of
    the next entry is called. *)
Example build_algorithms_in_alibi_first :
  build_algorithms_in strict_composer
    [("alibi", ∅); ("gradient_clipping", ∅)]
  = Raise (ValueError "Not sure how to build algorithm: alibi")
  /\ build_algorithms_in strict_composer
       [("gradient_clipping", sample_kwargs); ("fused_layernorm", ∅)]
     = Return [GradientClipping sample_kwargs; FusedLayerNorm ∅].
Proof. split; reflexivity. Qed.

Lemma script_loads_then_runs_main_witness :
  exists rest,
    (run_script (sample_world ∅)
       ["scripts/train.py"; "c.yaml"; "--model.n_layers=5"; "--seed=1"]).1
    = ev_prepare_cli_environment
      :: map ev_clean_opt ["--model.n_layers=5"; "--seed=1"]
      ++ ev_TrainConfig_load "c.yaml"
           (map (ext_clean_opt (sample_world ∅))
              ["--model.n_layers=5"; "--seed=1"])
      :: ev_echo_info
           [arg_str "Configuration:";
            arg_cfg (ext_TrainConfig_load (sample_world ∅) "c.yaml"
                       (map (ext_clean_opt (sample_world ∅))
                          ["--model.n_layers=5"; "--seed=1"]))]
           (Some true)
      :: rest.
Proof.
  apply (script_loads_then_runs_main (sample_world ∅) "scripts/train.py"
           "c.yaml" ["--model.n_layers=5"; "--seed=1"]);
    [reflexivity|intros h a; reflexivity|reflexivity].
Defined.

(** A world in which cleaning the option "--bad" raises. *)
Lemma script_clean_opt_raises_witness :
  run_script
    (raising_world
       (fun ev => match ev with
                  | ev_clean_opt s => String.eqb s "--bad"
                  | _ => false
                  end)
       "bad option")
    ("scripts/train.py" :: "c.yaml" :: ["--seed=1"] ++ "--bad" :: ["--x=2"])
  = (ev_prepare_cli_environment
     :: map ev_clean_opt ["--seed=1"] ++ [ev_clean_opt "--bad"],
     Raise (Propagated "bad option")).
Proof.
  apply script_clean_opt_raises; [reflexivity| |reflexivity].
  intros h a [<-|[]]. reflexivity.
Defined.

Lemma script_load_raises_witness :
  run_script (raising_world is_TrainConfig_load "no such file")
    ["scripts/train.py"; "missing.yaml"; "--seed=1"]
  = (ev_prepare_cli_environment
     :: map ev_clean_opt ["--seed=1"]
     ++ [ev_TrainConfig_load "missing.yaml"
           (map (ext_clean_opt
                   (raising_world is_TrainConfig_load "no such file"))
              ["--seed=1"])],
     Raise (Propagated "no such file")).
Proof.
  apply script_load_raises;
    [reflexivity|intros h a; reflexivity|reflexivity].
Defined.

Lemma main_seeds_before_model_witness :
  exists j k,
    (j < 7)%nat /\ (k < 7)%nat /\
    st_calls (run_main (sample_world ∅)
                (sample_cfg None false "cosine_with_warmup")).1 !! j
    = Some (ev_seed_all "6198") /\
    st_calls (run_main (sample_world ∅)
                (sample_cfg None false "cosine_with_warmup")).1 !! k
    = Some (ev_initialize_dist get_device_None).
Proof.
  exact (main_seeds_before_model (sample_world ∅)
           (sample_cfg None false "cosine_with_warmup") 7 "model" eq_refl).
Defined.

Lemma main_fit_raises_no_close_witness :
  count is_close
    (st_calls (run_main (raising_world is_fit "out of memory")
                 (sample_cfg None false "cosine_with_warmup")).1) = 0%nat
  /\ exists e,
       (run_main (raising_world is_fit "out of memory")
          (sample_cfg None false "cosine_with_warmup")).2
       = Raise (Propagated e).
Proof.
  eapply main_fit_raises_no_close. reflexivity.
Defined.


Lemma main_unrecognized_algorithm_stops_witness :
  trainers
    (st_calls
       (run_main (sample_world ∅)
          (sample_cfg_with
             (Some [("gradient_clipping", sample_kwargs); ("alibi", ∅)])
             None)).1) = []
  /\ count is_fit
       (st_calls
          (run_main (sample_world ∅)
             (sample_cfg_with
                (Some [("gradient_clipping", sample_kwargs); ("alibi", ∅)])
                None)).1) = 0%nat
  /\ count is_close
       (st_calls
          (run_main (sample_world ∅)
             (sample_cfg_with
                (Some [("gradient_clipping", sample_kwargs); ("alibi", ∅)])
                None)).1) = 0%nat
  /\ exists e,
       (run_main (sample_world ∅)
          (sample_cfg_with
             (Some [("gradient_clipping", sample_kwargs); ("alibi", ∅)])
             None)).2 = Raise e.
Proof.
  apply (main_unrecognized_algorithm_stops (sample_world ∅)
           (sample_cfg_with
              (Some [("gradient_clipping", sample_kwargs); ("alibi", ∅)])
              None) "alibi" ∅);
    [right; left; reflexivity|discriminate..].
Defined.

Lemma main_model_needs_batch_size_witness :
  count is_update_batch_size_info
    (st_calls (run_main (sample_world ∅)
                 (sample_cfg None false "cosine_with_warmup")).1) = 1%nat
  /\ exists b,
       device_train_batch_size
         (st_cfg (run_main (sample_world ∅)
                    (sample_cfg None false "cosine_with_warmup")).1) = Some b.
Proof.
  apply (main_model_needs_batch_size (sample_world ∅)
           (sample_cfg None false "cosine_with_warmup") "model").
  vm_compute. do 7 right. left. reflexivity.
Defined.

(** Without an int batch size the run stops at the assertion, before the
    model. *)
Example main_no_int_no_model :
  (run_main (cpu_world None) (sample_cfg None false "cosine_with_warmup")).2
  = Raise AssertionError
  /\ count is_ComposerDolmaGPT
       (st_calls (run_main (cpu_world None)
                    (sample_cfg None false "cosine_with_warmup")).1) = 0%nat.
Proof. split; reflexivity. Qed.

(** The scheduler name is reported even though an algorithm name is
    unrecognized too. *)
Lemma main_scheduler_checked_first_witness :
  (run_main (sample_world ∅)
     (sample_cfg_with (Some [("alibi", ∅)]) None)).2
  = Raise (DolmaConfigurationError
             "Not sure how to build scheduler: linear_decay_with_warmup")
  \/ (run_main (sample_world ∅)
        {| run_name := None; seed := "1"; dry_run := false; model := "m";
           optimizer := "o"; scheduler := sample_scheduler "step";
           algorithms := Some [("alibi", ∅)]; wandb := None;
           console_log_interval := "1"; global_train_batch_size := 8;
           device_train_batch_size := None;
           device_train_microbatch_size := "1"; max_duration := "1ep";
           precision := "fp32"; fsdp_config := "None"; save_folder := "None";
           save_interval := "1ep"; save_num_checkpoints_to_keep := "-1";
           save_overwrite := "False"; load_path := "None";
           load_weights_only := "False" |}).2
     = Raise (DolmaConfigurationError "Not sure how to build scheduler: step").
Proof.
  right.
  apply (main_scheduler_checked_first (sample_world ∅));
    [intros h ev; reflexivity|intros c; discriminate|discriminate..].
Defined.

Lemma main_returns_recognized_witness :
  (name (scheduler (sample_cfg None false "cosine_with_warmup"))
   = "constant_with_warmup" \/
   name (scheduler (sample_cfg None false "cosine_with_warmup"))
   = "cosine_with_warmup" \/
   name (scheduler (sample_cfg None false "cosine_with_warmup"))
   = "linear_decay_with_warmup") /\
  Forall (fun item =>
            item.1 = "gradient_clipping" \/ item.1 = "fused_layernorm" \/
            item.1 = "gated_linear_units" \/
            item.1 = "low_precision_layernorm")
         (algorithm_items
            (algorithms (sample_cfg None false "cosine_with_warmup"))).
Proof.
  exact (main_returns_recognized (sample_world ∅)
           (sample_cfg None false "cosine_with_warmup") eq_refl).
Defined.

Lemma main_dataloader_batch_size_witness :
  device_train_batch_size
    (st_cfg (run_main (sample_world ∅)
               (sample_cfg None false "cosine_with_warmup")).1) = Some 64.
Proof.
  refine (proj2 (main_dataloader_batch_size (sample_world ∅)
                   (sample_cfg None false "cosine_with_warmup")
                   (st_cfg (run_main (sample_world ∅)
                              (sample_cfg None false "cosine_with_warmup")).1)
                   64 _)).
  vm_compute. do 13 right. left. reflexivity.
Defined.

Lemma main_trainer_loggers_witness :
  exists t,
    In (ev_Trainer t)
       (st_calls (run_main (sample_world ∅)
                    (sample_cfg_with None (Some "wandb"))).1)
    /\ kw_loggers t = [DolmaConsoleLogger "10"; WandBLogger "wandb"].
Proof.
  destruct (main_returns_trainer (sample_world ∅)
              (sample_cfg_with None (Some "wandb")) eq_refl) as [t Ht].
  exists t. split; [exact Ht|].
  exact (proj1 (proj2 (main_trainer_loggers _ _ t Ht))).
Defined.

Lemma main_trainer_parts_witness :
  exists t,
    In (ev_Trainer t)
       (st_calls (run_main (sample_world ∅)
                    (sample_cfg None false "cosine_with_warmup")).1)
    /\ kw_optimizers t = configure_optimizer_of (kw_model t) "optimizer".
Proof.
  destruct (main_returns_trainer (sample_world ∅)
              (sample_cfg None false "cosine_with_warmup") eq_refl) as [t Ht].
  exists t. split; [exact Ht|].
  exact (proj1 (proj2 (main_trainer_parts _ _ t Ht))).
Defined.

Lemma main_cuda_only_on_gpu_witness :
  count is_cuda_current_device
    (st_calls (run_main (cpu_world (Some 4))
                 (sample_cfg None false "cosine_with_warmup")).1) = 0%nat.
Proof.
  destruct (main_returns_trainer (cpu_world (Some 4))
              (sample_cfg None false "cosine_with_warmup") eq_refl) as [t Ht].
  apply (proj2 (proj2 (main_cuda_only_on_gpu (cpu_world (Some 4))
                         (sample_cfg None false "cosine_with_warmup")))
           t Ht).
  discriminate.
Defined.
